(** * ECRPushImage: the push-image task operations

    A shallow embedding of [Tasks/ECRPushImage/helpers/PushImageTaskOperations.ts].
    The task is a straight-line script over two outside systems, the registry
    API and the container command line.  It is embedded as a program tree
    whose nodes are the calls that leave the task; an interpreter runs the
    tree against an arbitrary, possibly stateful, model of the outside world
    and records what was called, in order, together with how each call
    completed.

    The development has four parts: the embedding of the task with its
    interpreter; [behaviour], a description of every way a run of [execute]
    can go; [execute_behaviour], which shows that each run of the program is
    one of them; and the facts about the task, which follow from it. *)

From Stdlib Require Import String Ascii List Bool Arith Lia.
From ExtLib Require Import Structures.Monad Structures.MonadState Structures.MonadExc.
Import ListNotations.
Import MonadNotation.
Local Open Scope string_scope.
Local Open Scope monad_scope.

Set Implicit Arguments.

(** ** JavaScript values used by the task *)

Module Js.

(** A thrown value: an [Error] object with the fields the task reads.
    [err_code] is the [code] property the AWS SDK puts on its errors. *)
Record Error := mkError {
  err_name : string;
  err_message : string;
  err_code : option string
}.

(** [new Error(msg)] *)
Definition new_Error (msg : string) : Error := mkError "Error" msg None.

(** The error raised by reading a property of [undefined]. *)
Definition TypeError (msg : string) : Error := mkError "TypeError" msg None.

(** [Error.prototype.toString], which is what ['...' + err] appends. *)
Definition toString (e : Error) : string :=
  if String.eqb (err_name e) "" then err_message e
  else if String.eqb (err_message e) "" then err_name e
  else err_name e ++ ": " ++ err_message e.

(** How a call completes: it returns (a promise fulfils) or it throws
    (a promise rejects). *)
Inductive completion (A : Type) : Type :=
| Normal (a : A)
| Abrupt (e : Error).
Arguments Normal {A} a.
Arguments Abrupt {A} e.

(** Truthiness of a value typed [string]: [undefined] and [''] are falsy. *)
Definition truthy (v : option string) : bool :=
  match v with
  | Some (String _ _) => true
  | Some EmptyString => false
  | None => false
  end.

(** A [null] interpolated in a template literal. *)
Definition template_nullable (v : option string) : string :=
  match v with
  | Some s => s
  | None => "null"
  end.

(** [s.split(sep)] for a one-character separator. *)
Fixpoint split (sep : ascii) (s : string) : list string :=
  match s with
  | EmptyString => [EmptyString]
  | String c s' =>
      if Ascii.eqb c sep then EmptyString :: split sep s'
      else match split sep s' with
           | seg :: segs => String c seg :: segs
           | [] => [String c EmptyString]
           end
  end.

End Js.
Import Js.

(** ** Data of the task *)

(** [ECR.AuthorizationData]; both fields are optional in the SDK's typing.
    [expiresAt] is never read. *)
Record AuthorizationData := {
  authorizationToken : option string;
  proxyEndpoint : option string
}.

(** [ECR.GetAuthorizationTokenResponse] *)
Record GetAuthorizationTokenResponse := {
  authorizationData : option (list AuthorizationData)
}.

(** The result of [url.parse]; only [host] is read, and it can be [null]. *)
Record Url := { host : option string }.

(** A handle on a configured registry client. *)
Definition ECR := nat.

(** The inputs of the task, as [execute] reads them.  The three inputs that
    the code tests for truthiness may be absent. *)
Record TaskParameters := {
  imageSource : string;
  sourceImageName : string;
  sourceImageTag : option string;
  sourceImageId : string;
  repositoryName : string;
  pushTag : option string;
  autoCreateRepository : bool;
  outputVariable : option string
}.

(** The two private fields of a [TaskOperations] object, unset at first. *)
Record TaskOperations := {
  ecrClient : option ECR;
  dockerPath : option string
}.

Definition new_TaskOperations : TaskOperations :=
  {| ecrClient := None; dockerPath := None |}.

(** ** Calls that leave the task *)

(** Calls whose completion the task waits for.  [exec tool args] stands for
    [tl.tool(tool)], one [.arg(v)] for each element of [args] in order, and
    [.exec()]. *)
Inductive call : Type :=
| createAndConfigureSdkClient (apiVersion : string)
| which (tool : string) (check : bool)
| getAuthorizationToken (client : ECR)
| describeRepositories (client : ECR) (repositoryNames : list string)
| createRepository (client : ECR) (repositoryName : string)
| exec (tool : option string) (args : list (option string)).

(** What each call answers when it completes normally. *)
Definition resp (c : call) : Type :=
  match c with
  | createAndConfigureSdkClient _ => ECR
  | which _ _ => string
  | getAuthorizationToken _ => GetAuthorizationTokenResponse
  | describeRepositories _ _ => unit
  | createRepository _ _ => unit
  | exec _ _ => nat
  end.

(** Effects with nothing to wait for: [console.log(tl.loc(key, args))] and
    [tl.setVariable(name, value)]. *)
Inductive output : Type :=
| console_log (key : string) (args : list (option string))
| setVariable (name value : string).

(** ** Programs *)

Inductive Prog (A : Type) : Type :=
| Ret (a : A)
| Throw (e : Error)
| Emit (o : output) (k : Prog A)
| Await (c : call) (k : completion (resp c) -> Prog A)
| ReadThis (k : TaskOperations -> Prog A)
| WriteThis (s : TaskOperations) (k : Prog A).
Arguments Ret {A} a.
Arguments Throw {A} e.

Module Prog.

Fixpoint bind {A B} (p : Prog A) (f : A -> Prog B) : Prog B :=
  match p with
  | Ret a => f a
  | Throw e => Throw e
  | Emit o k => Emit o (bind k f)
  | Await c k => Await c (fun r => bind (k r) f)
  | ReadThis k => ReadThis (fun s => bind (k s) f)
  | WriteThis s k => WriteThis s (bind k f)
  end.

(** [try { p } catch (err) { h err }] *)
Fixpoint try_catch {A} (p : Prog A) (h : Error -> Prog A) : Prog A :=
  match p with
  | Ret a => Ret a
  | Throw e => h e
  | Emit o k => Emit o (try_catch k h)
  | Await c k => Await c (fun r => try_catch (k r) h)
  | ReadThis k => ReadThis (fun s => try_catch (k s) h)
  | WriteThis s k => WriteThis s (try_catch k h)
  end.

End Prog.

#[global] Instance Monad_Prog : Monad Prog :=
  {| ret := @Ret; bind := @Prog.bind |}.

#[global] Instance MonadExc_Prog : MonadExc Error Prog :=
  {| raise := @Throw; catch := @Prog.try_catch |}.

#[global] Instance MonadState_Prog : MonadState TaskOperations Prog :=
  {| get := ReadThis (fun s => Ret s); put := fun s => WriteThis s (Ret tt) |}.

(** [await c]: a rejected promise is rethrown at the [await]. *)
Definition await (c : call) : Prog (resp c) :=
  Await c (fun r => match r with Normal v => Ret v | Abrupt e => Throw e end).

Definition emit (o : output) : Prog unit := Emit o (Ret tt).

(** A library function that returns or throws without leaving the process. *)
Definition lift {A} (r : completion A) : Prog A :=
  match r with Normal v => Ret v | Abrupt e => Throw e end.

(** [o.name] where [o] may be [undefined]. *)
Definition prop {T B} (o : option T) (name : string) (f : T -> B) : Prog B :=
  match o with
  | Some x => ret (f x)
  | None => raise (TypeError ("Cannot read property '" ++ name ++ "' of undefined"))
  end.

(** ** The interpreter *)

Inductive event : Type :=
| Output (o : output)
| Called (c : call) (r : completion (resp c)).

Record run_result (W A : Type) := {
  trace : list event;
  result : completion A;
  final_this : TaskOperations;
  final_world : W
}.

Definition after {W A} (ev : event) (r : run_result W A) : run_result W A :=
  {| trace := ev :: trace r; result := result r;
     final_this := final_this r; final_world := final_world r |}.

Section Run.

Variable W : Type.
(** The outside world: how each call completes, and what it leaves behind. *)
Variable world : forall c : call, W -> completion (resp c) * W.

Fixpoint run {A} (p : Prog A) (this : TaskOperations) (w : W) : run_result W A :=
  match p with
  | Ret a => {| trace := []; result := Normal a; final_this := this; final_world := w |}
  | Throw e => {| trace := []; result := Abrupt e; final_this := this; final_world := w |}
  | Emit o k => after (Output o) (run k this w)
  | Await c k =>
      let r := fst (world c w) in
      after (Called c r) (run (k r) this (snd (world c w)))
  | ReadThis k => run (k this) this w
  | WriteThis s k => run k s w
  end.

End Run.

(** ** The task operations *)

(** [undefined] interpolated in a template literal. *)
Definition template (v : option string) : string :=
  match v with
  | Some s => s
  | None => "undefined"
  end.

(** [err.code === c] *)
Definition code_is (err : Error) (c : string) : bool :=
  match err_code err with
  | Some c' => String.eqb c' c
  | None => false
  end.

Section Operations.

(** [parse] of module [url] and [decode] of module [base-64]: library
    functions, which return or throw. *)
Variable parse : option string -> completion Url.
Variable base64_decode : option string -> completion string.

(** [TaskParameters.imageNameSource] *)
Variable imageNameSource : string.

(** [this.taskParameters] *)
Variable taskParameters : TaskParameters.

Definition log (key : string) (args : list (option string)) : Prog unit :=
  emit (console_log key args).

(** [this.ecrClient.method(...)] *)
Definition with_ecrClient {A} (method : string) (k : ECR -> Prog A) : Prog A :=
  this <- get ;;
  match ecrClient this with
  | Some client => k client
  | None => raise (TypeError ("Cannot read property '" ++ method ++ "' of undefined"))
  end.

Definition createServiceClients : Prog unit :=
  let apiVersion := "2015-09-21" in
  client <- await (createAndConfigureSdkClient apiVersion) ;;
  this <- get ;;
  put {| ecrClient := Some client; dockerPath := dockerPath this |}.

Definition constructTaggedImageName (imageName : string) (tag : option string) : string :=
  if truthy tag then imageName ++ ":" ++ template tag
  else imageName.

Definition createRepositoryIfNeeded (repository : string) : Prog unit :=
  log "TestingForRepository" [Some repository] ;;
  catch
    (with_ecrClient "describeRepositories" (fun client =>
       await (describeRepositories client [repository])))
    (fun err =>
       if code_is err "RepositoryNotFoundException" then
         log "CreatingRepository" [] ;;
         with_ecrClient "createRepository" (fun client =>
           await (createRepository client repository))
       else
         raise (new_Error ("Error testing for repository existence: " ++ toString err))).

Definition runDockerCommand (command : string) (args : list (option string)) : Prog unit :=
  this <- get ;;
  log "InvokingDockerCommand" [dockerPath this; Some command] ;;
  this <- get ;;
  await (exec (dockerPath this) (Some command :: args)) ;;
  ret tt.

Definition loginToRegistry (encodedAuthToken endpoint : option string) : Prog unit :=
  decoded <- lift (base64_decode encodedAuthToken) ;;
  let tokens := split ":" decoded in
  runDockerCommand "login"
    [Some "-u"; nth_error tokens 0; Some "-p"; nth_error tokens 1; endpoint].

Definition tagImage (sourceImageRef imageTag : string) : Prog unit :=
  log "AddingTag" [Some imageTag; Some sourceImageRef] ;;
  runDockerCommand "tag" [Some sourceImageRef; Some imageTag].

Definition pushImageToECR (imageRef : string) : Prog unit :=
  log "PushingImage" [Some imageRef] ;;
  runDockerCommand "push" [Some imageRef].

(** The result is [undefined] when the array of the response is empty. *)
Definition getEcrAuthorizationData : Prog (option AuthorizationData) :=
  catch
    (log "RequestingAuthToken" [] ;;
     response <- with_ecrClient "getAuthorizationToken" (fun client =>
                   await (getAuthorizationToken client)) ;;
     entries <- prop (authorizationData response) "0" (fun l => l) ;;
     ret (nth_error entries 0))
    (fun err =>
       raise (new_Error
         ("Failed to obtain authorization token to log in to ECR, error: " ++ toString err))).

Definition dockerExecutables : list string := ["docker"; "docker.exe"].

(** The [for ... of] loop of [locateDockerExecutable]: [dockerPath] is the
    local variable, and the flag of the inner result says whether the
    iteration left through [break]. *)
Fixpoint locate_loop (executables : list string) (dockerPath : option string)
  : Prog (option string) :=
  match executables with
  | [] => ret dockerPath
  | e :: rest =>
      step <- catch
                (found <- await (which e true) ;;
                 ret (Some found, truthy (Some found)))
                (fun _ => ret (dockerPath, false)) ;;
      if snd step then ret (fst step)
      else locate_loop rest (fst step)
  end.

Definition locateDockerExecutable : Prog string :=
  dockerPath <- locate_loop dockerExecutables None ;;
  if negb (truthy dockerPath) then
    raise (new_Error "Cannot find docker command line executable")
  else
    ret (template dockerPath).

Definition execute : Prog unit :=
  createServiceClients ;;
  located <- locateDockerExecutable ;;
  this <- get ;;
  put {| ecrClient := ecrClient this; dockerPath := Some located |} ;;

  sourceImageRef <-
    (if String.eqb (imageSource taskParameters) imageNameSource then
       let ref := constructTaggedImageName (sourceImageName taskParameters)
                                           (sourceImageTag taskParameters) in
       log "PushImageWithName" [Some ref] ;;
       ret ref
     else
       log "PushImageWithId" [Some (sourceImageId taskParameters)] ;;
       ret (sourceImageId taskParameters)) ;;

  authData <- getEcrAuthorizationData ;;
  endpointUrl <- prop authData "proxyEndpoint" proxyEndpoint ;;
  url <- lift (parse endpointUrl) ;;
  let endpoint := host url in

  (if autoCreateRepository taskParameters then
     createRepositoryIfNeeded (repositoryName taskParameters)
   else ret tt) ;;

  let targetImageName := constructTaggedImageName (repositoryName taskParameters)
                                                  (pushTag taskParameters) in
  let targetImageRef := template_nullable endpoint ++ "/" ++ targetImageName in
  tagImage sourceImageRef targetImageRef ;;

  token <- prop authData "authorizationToken" authorizationToken ;;
  endpointUrl <- prop authData "proxyEndpoint" proxyEndpoint ;;
  loginToRegistry token endpointUrl ;;

  pushImageToECR targetImageRef ;;

  (if truthy (outputVariable taskParameters) then
     log "SettingOutputVariable" [outputVariable taskParameters; Some targetImageRef] ;;
     emit (setVariable (template (outputVariable taskParameters)) targetImageRef)
   else ret tt) ;;

  log "TaskCompleted" [].

End Operations.

(** A run that comes after the events [t]. *)
Definition prepend {W A} (t : list event) (r : run_result W A) : run_result W A :=
  {| trace := t ++ trace r; result := result r;
     final_this := final_this r; final_world := final_world r |}.

(** Sequencing of two runs: the second starts where the first stopped, unless
    the first threw. *)
Definition chain {W A B} (r : run_result W A)
    (k : A -> TaskOperations -> W -> run_result W B) : run_result W B :=
  match result r with
  | Normal a => prepend (trace r) (k a (final_this r) (final_world r))
  | Abrupt e =>
      {| trace := trace r; result := Abrupt e;
         final_this := final_this r; final_world := final_world r |}
  end.

(** ** Reading a trace *)

Definition is_registry_request (c : call) : bool :=
  match c with
  | getAuthorizationToken _ | describeRepositories _ _ | createRepository _ _ => true
  | _ => false
  end.

Definition is_subprocess (c : call) : bool :=
  match c with
  | exec _ _ => true
  | _ => false
  end.

Definition is_which (c : call) : bool :=
  match c with
  | which _ _ => true
  | _ => false
  end.

(** The calls of a trace, in order, without their completions. *)
Definition calls (tr : list event) : list call :=
  flat_map (fun ev => match ev with Called c _ => [c] | Output _ => [] end) tr.

Definition registry_requests (tr : list event) : list call :=
  filter is_registry_request (calls tr).

Definition subprocesses (tr : list event) : list call :=
  filter is_subprocess (calls tr).

(** The requests to the registry and the subprocess runs, each with its
    completion, in the order they happened. *)
Definition external_actions (tr : list event) : list event :=
  filter (fun ev => match ev with
                    | Called c _ => is_registry_request c || is_subprocess c
                    | Output _ => false
                    end) tr.

(** The lookups of the executable, each with its completion. *)
Definition lookups (tr : list event) : list event :=
  filter (fun ev => match ev with
                    | Called c _ => is_which c
                    | Output _ => false
                    end) tr.

Definition variables_set (tr : list event) : list (string * string) :=
  flat_map (fun ev => match ev with
                      | Output (setVariable name value) => [(name, value)]
                      | _ => []
                      end) tr.

(** The existence queries that threw: client, repository names, error. *)
Definition query_failures (tr : list event) : list (ECR * list string * Error) :=
  flat_map (fun ev =>
              match ev with
              | Called c r =>
                  match c as c0 return completion (resp c0) -> list (ECR * list string * Error) with
                  | describeRepositories client names =>
                      fun r => match r with Normal _ => [] | Abrupt e => [(client, names, e)] end
                  | _ => fun _ => []
                  end r
              | Output _ => []
              end) tr.

(** The authorization-token requests that threw: client, error. *)
Definition token_failures (tr : list event) : list (ECR * Error) :=
  flat_map (fun ev =>
              match ev with
              | Called c r =>
                  match c as c0 return completion (resp c0) -> list (ECR * Error) with
                  | getAuthorizationToken client =>
                      fun r => match r with Normal _ => [] | Abrupt e => [(client, e)] end
                  | _ => fun _ => []
                  end r
              | Output _ => []
              end) tr.

(** The answers to the authorization-token requests that succeeded. *)
Definition token_responses (tr : list event) : list GetAuthorizationTokenResponse :=
  flat_map (fun ev =>
              match ev with
              | Called c r =>
                  match c as c0 return completion (resp c0) -> list GetAuthorizationTokenResponse with
                  | getAuthorizationToken _ =>
                      fun r => match r with Normal response => [response] | Abrupt _ => [] end
                  | _ => fun _ => []
                  end r
              | Output _ => []
              end) tr.

(** The repository creations that threw: client, repository name, error. *)
Definition creation_failures (tr : list event) : list (ECR * string * Error) :=
  flat_map (fun ev =>
              match ev with
              | Called c r =>
                  match c as c0 return completion (resp c0) -> list (ECR * string * Error) with
                  | createRepository client name =>
                      fun r => match r with Normal _ => [] | Abrupt e => [(client, name, e)] end
                  | _ => fun _ => []
                  end r
              | Output _ => []
              end) tr.

(** The container commands that threw, each with its error. *)
Definition subprocess_failures (tr : list event) : list (call * Error) :=
  flat_map (fun ev =>
              match ev with
              | Called c r =>
                  match c as c0 return completion (resp c0) -> list (call * Error) with
                  | exec tool args =>
                      fun r => match r with
                               | Normal _ => []
                               | Abrupt e => [(exec tool args, e)]
                               end
                  | _ => fun _ => []
                  end r
              | Output _ => []
              end) tr.

(** The lines written to the console: message key and arguments. *)
Definition logged (tr : list event) : list (string * list (option string)) :=
  flat_map (fun ev => match ev with
                      | Output (console_log key args) => [(key, args)]
                      | _ => []
                      end) tr.

(** The client a request to the registry goes through. *)
Definition client_of (c : call) : option ECR :=
  match c with
  | getAuthorizationToken client => Some client
  | describeRepositories client _ => Some client
  | createRepository client _ => Some client
  | _ => None
  end.

(** The same inputs with another source image id. *)
Definition with_source_id (p : TaskParameters) (id : string) : TaskParameters :=
  {| imageSource := imageSource p;
     sourceImageName := sourceImageName p;
     sourceImageTag := sourceImageTag p;
     sourceImageId := id;
     repositoryName := repositoryName p;
     pushTag := pushTag p;
     autoCreateRepository := autoCreateRepository p;
     outputVariable := outputVariable p |}.

(** The same inputs with another source image name and tag. *)
Definition with_source_image (p : TaskParameters) (name : string) (tag : option string)
  : TaskParameters :=
  {| imageSource := imageSource p;
     sourceImageName := name;
     sourceImageTag := tag;
     sourceImageId := sourceImageId p;
     repositoryName := repositoryName p;
     pushTag := pushTag p;
     autoCreateRepository := autoCreateRepository p;
     outputVariable := outputVariable p |}.

(** Whether the character [c] occurs in [s]. *)
Fixpoint occurs (c : ascii) (s : string) : bool :=
  match s with
  | EmptyString => false
  | String c' s' => Ascii.eqb c' c || occurs c s'
  end.

(** A lookup that found the executable: it returned a non-empty path. *)
Definition found (r : completion string) : option string :=
  match r with
  | Normal p => if truthy (Some p) then Some p else None
  | Abrupt _ => None
  end.

(** What the two lookups of the executable can be: the first name is found,
    or it is not and the second name is tried.  The third index is the path
    that was found, if any. *)
Inductive lookup_outcome {W} (world : forall c : call, W -> completion (resp c) * W) (w : W)
  : list event -> option string -> W -> Prop :=
| first_found r1 w1 path :
    world (which "docker" true) w = (r1, w1) ->
    found r1 = Some path ->
    lookup_outcome world w [Called (which "docker" true) r1] (Some path) w1
| second_tried r1 w1 r2 w2 o :
    world (which "docker" true) w = (r1, w1) ->
    found r1 = None ->
    world (which "docker.exe" true) w1 = (r2, w2) ->
    found r2 = o ->
    lookup_outcome world w
      [Called (which "docker" true) r1; Called (which "docker.exe" true) r2] o w2.

(** ** A concrete outside world *)

Module Sample.

(** Standard base64, enough to decode well-formed tokens. *)
Definition sextet (c : ascii) : option nat :=
  let n := nat_of_ascii c in
  if ((65 <=? n) && (n <=? 90))%nat then Some (n - 65)
  else if ((97 <=? n) && (n <=? 122))%nat then Some (n - 71)
  else if ((48 <=? n) && (n <=? 57))%nat then Some (n + 4)
  else if (n =? 43)%nat then Some 62
  else if (n =? 47)%nat then Some 63
  else None.

Fixpoint sextets (s : string) : option (list nat) :=
  match s with
  | EmptyString => Some []
  | String c s' =>
      if Ascii.eqb c "=" then Some []
      else match sextet c, sextets s' with
           | Some v, Some vs => Some (v :: vs)
           | _, _ => None
           end
  end.

Fixpoint octets (l : list nat) : list nat :=
  match l with
  | a :: b :: c :: d :: rest =>
      (a * 4 + b / 16) :: ((b mod 16) * 16 + c / 4) :: ((c mod 4) * 64 + d) :: octets rest
  | [a; b; c] => [a * 4 + b / 16; (b mod 16) * 16 + c / 4]
  | [a; b] => [a * 4 + b / 16]
  | _ => []
  end.

Definition decode (input : option string) : completion string :=
  match input with
  | None => Abrupt (mkError "InvalidCharacterError" "Invalid character" None)
  | Some s =>
      match sextets s with
      | Some vs => Normal (string_of_list_ascii (map ascii_of_nat (octets vs)))
      | None => Abrupt (mkError "InvalidCharacterError" "Invalid character" None)
      end
  end.

Fixpoint until_slash (s : string) : string :=
  match s with
  | EmptyString => EmptyString
  | String c s' => if Ascii.eqb c "/" then EmptyString else String c (until_slash s')
  end.

(** The host of an [https://host/...] address; [null] for anything else. *)
Definition parse (u : option string) : completion Url :=
  match u with
  | None => Abrupt (TypeError "Parameter 'url' must be a string, not undefined")
  | Some s =>
      if String.prefix "https://" s
      then Normal {| host := Some (until_slash (String.substring 8 (String.length s - 8) s)) |}
      else Normal {| host := None |}
  end.

(** How the outside answers in one scenario. *)
Record scenario := {
  sdk_client : completion ECR;
  which_docker : completion string;
  which_docker_exe : completion string;
  token_response : completion GetAuthorizationTokenResponse;
  describe_response : completion unit;
  create_response : completion unit;
  exec_response : completion nat
}.

(** The state of the world is the number of calls it has answered. *)
Definition world (s : scenario) (c : call) (n : nat) : completion (resp c) * nat :=
  match c with
  | createAndConfigureSdkClient _ => (sdk_client s, S n)
  | which tool _ =>
      (if String.eqb tool "docker" then which_docker s else which_docker_exe s, S n)
  | getAuthorizationToken _ => (token_response s, S n)
  | describeRepositories _ _ => (describe_response s, S n)
  | createRepository _ _ => (create_response s, S n)
  | exec _ _ => (exec_response s, S n)
  end.

Definition not_found (what : string) : Error :=
  mkError "Error" ("Unable to locate executable file: " ++ what) None.

Definition repository_missing : Error :=
  mkError "RepositoryNotFoundException" "The repository does not exist"
          (Some "RepositoryNotFoundException").

Definition access_denied : Error :=
  mkError "AccessDeniedException" "User is not authorized" (Some "AccessDeniedException").

(** base64 of [AWS:secret] *)
Definition entry : AuthorizationData :=
  {| authorizationToken := Some "QVdTOnNlY3JldA==";
     proxyEndpoint := Some "https://123456789012.dkr.ecr.us-east-1.amazonaws.com" |}.

Definition all_well : scenario :=
  {| sdk_client := Normal 1;
     which_docker := Normal "/usr/bin/docker";
     which_docker_exe := Abrupt (not_found "docker.exe");
     token_response := Normal {| authorizationData := Some [entry] |};
     describe_response := Abrupt repository_missing;
     create_response := Normal tt;
     exec_response := Normal 0 |}.

Definition parameters : TaskParameters :=
  {| imageSource := "imagename";
     sourceImageName := "app";
     sourceImageTag := Some "latest";
     sourceImageId := "sha256:0123";
     repositoryName := "team/app";
     pushTag := Some "v1";
     autoCreateRepository := true;
     outputVariable := Some "image" |}.

(** The registry refuses to hand out a token. *)
Definition token_refused : scenario :=
  {| sdk_client := Normal 1;
     which_docker := Normal "/usr/bin/docker";
     which_docker_exe := Abrupt (not_found "docker.exe");
     token_response := Abrupt access_denied;
     describe_response := Normal tt;
     create_response := Normal tt;
     exec_response := Normal 0 |}.

(** The registry answers with an empty array of entries. *)
Definition no_entries : scenario :=
  {| sdk_client := Normal 1;
     which_docker := Normal "/usr/bin/docker";
     which_docker_exe := Abrupt (not_found "docker.exe");
     token_response := Normal {| authorizationData := Some [] |};
     describe_response := Normal tt;
     create_response := Normal tt;
     exec_response := Normal 0 |}.

(** Only [docker.exe] is on the path. *)
Definition on_windows : scenario :=
  {| sdk_client := Normal 1;
     which_docker := Abrupt (not_found "docker");
     which_docker_exe := Normal "C:\docker\docker.exe";
     token_response := Normal {| authorizationData := Some [entry] |};
     describe_response := Normal tt;
     create_response := Normal tt;
     exec_response := Normal 0 |}.

(** The client cannot be built. *)
Definition no_credentials : scenario :=
  {| sdk_client := Abrupt (mkError "Error" "Missing credentials" None);
     which_docker := Normal "/usr/bin/docker";
     which_docker_exe := Abrupt (not_found "docker.exe");
     token_response := Normal {| authorizationData := Some [entry] |};
     describe_response := Normal tt;
     create_response := Normal tt;
     exec_response := Normal 0 |}.

(** The repository is missing and may not be created. *)
Definition creation_denied : scenario :=
  {| sdk_client := Normal 1;
     which_docker := Normal "/usr/bin/docker";
     which_docker_exe := Abrupt (not_found "docker.exe");
     token_response := Normal {| authorizationData := Some [entry] |};
     describe_response := Abrupt repository_missing;
     create_response := Abrupt access_denied;
     exec_response := Normal 0 |}.

(** Every container command exits with a failure. *)
Definition docker_fails : scenario :=
  {| sdk_client := Normal 1;
     which_docker := Normal "/usr/bin/docker";
     which_docker_exe := Abrupt (not_found "docker.exe");
     token_response := Normal {| authorizationData := Some [entry] |};
     describe_response := Normal tt;
     create_response := Normal tt;
     exec_response := Abrupt (mkError "Error" "docker failed with return code: 1" None) |}.

(** All is well, but the registry answers [response] to the token request. *)
Definition answering (response : GetAuthorizationTokenResponse) : scenario :=
  {| sdk_client := Normal 1;
     which_docker := Normal "/usr/bin/docker";
     which_docker_exe := Abrupt (not_found "docker.exe");
     token_response := Normal response;
     describe_response := Normal tt;
     create_response := Normal tt;
     exec_response := Normal 0 |}.

(** An entry whose token is not base64. *)
Definition garbled : AuthorizationData :=
  {| authorizationToken := Some "!!!";
     proxyEndpoint := Some "https://123456789012.dkr.ecr.us-east-1.amazonaws.com" |}.

(** An entry whose endpoint has no scheme, hence no host. *)
Definition hostless : AuthorizationData :=
  {| authorizationToken := Some "QVdTOnNlY3JldA==";
     proxyEndpoint := Some "registry.local" |}.

(** An entry without endpoint. *)
Definition endless : AuthorizationData :=
  {| authorizationToken := Some "QVdTOnNlY3JldA==";
     proxyEndpoint := None |}.

(** The image is given by id, and the repository is not to be created. *)
Definition by_id : TaskParameters :=
  {| imageSource := "imageid";
     sourceImageName := "app";
     sourceImageTag := Some "latest";
     sourceImageId := "sha256:0123";
     repositoryName := "team/app";
     pushTag := None;
     autoCreateRepository := false;
     outputVariable := None |}.


Definition go (s : scenario) (p : TaskParameters) : run_result nat unit :=
  run (world s) (execute parse decode "imagename" p) new_TaskOperations 0.

End Sample.

(** ** The behaviours of [execute]

    Every way a run of [execute] can go, by the point where it stops, with
    the events it leaves and its result.  [execute_behaviour] below shows that
    each run of the program is one of them. *)

Section Behaviour.

Variable W : Type.
Variable world : forall c : call, W -> completion (resp c) * W.
Variable parse : option string -> completion Url.
Variable base64_decode : option string -> completion string.
Variable imageNameSource : string.
Variable p : TaskParameters.

Definition source_reference : string :=
  if String.eqb (imageSource p) imageNameSource
  then constructTaggedImageName (sourceImageName p) (sourceImageTag p)
  else sourceImageId p.

Definition source_event : event :=
  Output (console_log
            (if String.eqb (imageSource p) imageNameSource
             then "PushImageWithName" else "PushImageWithId")
            [Some source_reference]).

Definition target_reference (url : Url) : string :=
  template_nullable (host url) ++ "/"
  ++ constructTaggedImageName (repositoryName p) (pushTag p).

Definition token_events (client : ECR)
    (r : completion GetAuthorizationTokenResponse) : list event :=
  [Output (console_log "RequestingAuthToken" []);
   Called (getAuthorizationToken client) r].

Definition docker_events (docker command : string) (args : list (option string))
    (r : completion nat) : list event :=
  [Output (console_log "InvokingDockerCommand" [Some docker; Some command]);
   Called (exec (Some docker) (Some command :: args)) r].

Definition tag_events (docker target : string) (r : completion nat) : list event :=
  Output (console_log "AddingTag" [Some target; Some source_reference])
  :: docker_events docker "tag" [Some source_reference; Some target] r.

Definition login_arguments (decoded : string) (endpoint : option string)
  : list (option string) :=
  [Some "-u"; nth_error (split ":" decoded) 0;
   Some "-p"; nth_error (split ":" decoded) 1; endpoint].

Definition login_events (docker decoded : string) (endpoint : option string)
    (r : completion nat) : list event :=
  docker_events docker "login" (login_arguments decoded endpoint) r.

Definition push_events (docker target : string) (r : completion nat) : list event :=
  Output (console_log "PushingImage" [Some target])
  :: docker_events docker "push" [Some target] r.

Definition finish_events (target : string) : list event :=
  (if truthy (outputVariable p)
   then [Output (console_log "SettingOutputVariable" [outputVariable p; Some target]);
         Output (setVariable (template (outputVariable p)) target)]
   else [])
  ++ [Output (console_log "TaskCompleted" [])].

(** The repository step: its events, its result and the world it leaves. *)
Inductive repository_step (client : ECR) (w : W)
  : list event -> completion unit -> W -> Prop :=
| repository_not_asked :
    autoCreateRepository p = false ->
    repository_step client w [] (Normal tt) w
| repository_exists w1 :
    autoCreateRepository p = true ->
    world (describeRepositories client [repositoryName p]) w = (Normal tt, w1) ->
    repository_step client w
      [Output (console_log "TestingForRepository" [Some (repositoryName p)]);
       Called (describeRepositories client [repositoryName p]) (Normal tt)]
      (Normal tt) w1
| repository_created e w1 r w2 :
    autoCreateRepository p = true ->
    world (describeRepositories client [repositoryName p]) w = (Abrupt e, w1) ->
    code_is e "RepositoryNotFoundException" = true ->
    world (createRepository client (repositoryName p)) w1 = (r, w2) ->
    repository_step client w
      [Output (console_log "TestingForRepository" [Some (repositoryName p)]);
       Called (describeRepositories client [repositoryName p]) (Abrupt e);
       Output (console_log "CreatingRepository" []);
       Called (createRepository client (repositoryName p)) r]
      r w2
| repository_query_failed e w1 :
    autoCreateRepository p = true ->
    world (describeRepositories client [repositoryName p]) w = (Abrupt e, w1) ->
    code_is e "RepositoryNotFoundException" = false ->
    repository_step client w
      [Output (console_log "TestingForRepository" [Some (repositoryName p)]);
       Called (describeRepositories client [repositoryName p]) (Abrupt e)]
      (Abrupt (new_Error ("Error testing for repository existence: " ++ toString e)))
      w1.

(** The client is built, the executable is found, the source is chosen. *)
Inductive prelude (w : W) : ECR -> string -> list event -> W -> Prop :=
| prelude_intro client w1 lk docker w2 :
    world (createAndConfigureSdkClient "2015-09-21") w = (Normal client, w1) ->
    lookup_outcome world w1 lk (Some docker) w2 ->
    prelude w client docker
      (Called (createAndConfigureSdkClient "2015-09-21") (Normal client)
       :: lk ++ [source_event])
      w2.

(** ... and the registry answered with an entry whose endpoint parses. *)
Inductive authorized (w : W)
  : ECR -> string -> AuthorizationData -> Url -> list event -> W -> Prop :=
| authorized_intro client docker tr w2 response w3 entry rest url :
    prelude w client docker tr w2 ->
    world (getAuthorizationToken client) w2 = (Normal response, w3) ->
    authorizationData response = Some (entry :: rest) ->
    parse (proxyEndpoint entry) = Normal url ->
    authorized w client docker entry url
      (tr ++ token_events client (Normal response)) w3.

(** ... and the repository step went through. *)
Inductive prepared (w : W)
  : ECR -> string -> AuthorizationData -> Url -> list event -> W -> Prop :=
| prepared_intro client docker entry url tr w3 steps w4 :
    authorized w client docker entry url tr w3 ->
    repository_step client w3 steps (Normal tt) w4 ->
    prepared w client docker entry url (tr ++ steps) w4.

Inductive behaviour (w : W) : list event -> completion unit -> Prop :=
| client_failed e w1 :
    world (createAndConfigureSdkClient "2015-09-21") w = (Abrupt e, w1) ->
    behaviour w
      [Called (createAndConfigureSdkClient "2015-09-21") (Abrupt e)]
      (Abrupt e)
| docker_missing client w1 lk w2 :
    world (createAndConfigureSdkClient "2015-09-21") w = (Normal client, w1) ->
    lookup_outcome world w1 lk None w2 ->
    behaviour w
      (Called (createAndConfigureSdkClient "2015-09-21") (Normal client) :: lk)
      (Abrupt (new_Error "Cannot find docker command line executable"))
| token_refused client docker tr w2 e w3 :
    prelude w client docker tr w2 ->
    world (getAuthorizationToken client) w2 = (Abrupt e, w3) ->
    behaviour w
      (tr ++ token_events client (Abrupt e))
      (Abrupt (new_Error
         ("Failed to obtain authorization token to log in to ECR, error: " ++ toString e)))
| token_without_data client docker tr w2 response w3 :
    prelude w client docker tr w2 ->
    world (getAuthorizationToken client) w2 = (Normal response, w3) ->
    authorizationData response = None ->
    behaviour w
      (tr ++ token_events client (Normal response))
      (Abrupt (new_Error
         ("Failed to obtain authorization token to log in to ECR, error: "
          ++ toString (TypeError "Cannot read property '0' of undefined"))))
| no_entry client docker tr w2 response w3 :
    prelude w client docker tr w2 ->
    world (getAuthorizationToken client) w2 = (Normal response, w3) ->
    authorizationData response = Some [] ->
    behaviour w
      (tr ++ token_events client (Normal response))
      (Abrupt (TypeError "Cannot read property 'proxyEndpoint' of undefined"))
| endpoint_unparsed client docker tr w2 response w3 entry rest e :
    prelude w client docker tr w2 ->
    world (getAuthorizationToken client) w2 = (Normal response, w3) ->
    authorizationData response = Some (entry :: rest) ->
    parse (proxyEndpoint entry) = Abrupt e ->
    behaviour w
      (tr ++ token_events client (Normal response))
      (Abrupt e)
| repository_failed client docker entry url tr w3 steps e w4 :
    authorized w client docker entry url tr w3 ->
    repository_step client w3 steps (Abrupt e) w4 ->
    behaviour w (tr ++ steps) (Abrupt e)
| tag_failed client docker entry url tr w4 e w5 :
    prepared w client docker entry url tr w4 ->
    world (exec (Some docker)
             [Some "tag"; Some source_reference; Some (target_reference url)]) w4
      = (Abrupt e, w5) ->
    behaviour w
      (tr ++ tag_events docker (target_reference url) (Abrupt e))
      (Abrupt e)
| token_undecodable client docker entry url tr w4 c1 w5 e :
    prepared w client docker entry url tr w4 ->
    world (exec (Some docker)
             [Some "tag"; Some source_reference; Some (target_reference url)]) w4
      = (Normal c1, w5) ->
    base64_decode (authorizationToken entry) = Abrupt e ->
    behaviour w
      (tr ++ tag_events docker (target_reference url) (Normal c1))
      (Abrupt e)
| login_failed client docker entry url tr w4 c1 w5 decoded e w6 :
    prepared w client docker entry url tr w4 ->
    world (exec (Some docker)
             [Some "tag"; Some source_reference; Some (target_reference url)]) w4
      = (Normal c1, w5) ->
    base64_decode (authorizationToken entry) = Normal decoded ->
    world (exec (Some docker)
             (Some "login" :: login_arguments decoded (proxyEndpoint entry))) w5
      = (Abrupt e, w6) ->
    behaviour w
      (tr ++ tag_events docker (target_reference url) (Normal c1)
          ++ login_events docker decoded (proxyEndpoint entry) (Abrupt e))
      (Abrupt e)
| push_failed client docker entry url tr w4 c1 w5 decoded c2 w6 e w7 :
    prepared w client docker entry url tr w4 ->
    world (exec (Some docker)
             [Some "tag"; Some source_reference; Some (target_reference url)]) w4
      = (Normal c1, w5) ->
    base64_decode (authorizationToken entry) = Normal decoded ->
    world (exec (Some docker)
             (Some "login" :: login_arguments decoded (proxyEndpoint entry))) w5
      = (Normal c2, w6) ->
    world (exec (Some docker) [Some "push"; Some (target_reference url)]) w6
      = (Abrupt e, w7) ->
    behaviour w
      (tr ++ tag_events docker (target_reference url) (Normal c1)
          ++ login_events docker decoded (proxyEndpoint entry) (Normal c2)
          ++ push_events docker (target_reference url) (Abrupt e))
      (Abrupt e)
| completed client docker entry url tr w4 c1 w5 decoded c2 w6 c3 w7 :
    prepared w client docker entry url tr w4 ->
    world (exec (Some docker)
             [Some "tag"; Some source_reference; Some (target_reference url)]) w4
      = (Normal c1, w5) ->
    base64_decode (authorizationToken entry) = Normal decoded ->
    world (exec (Some docker)
             (Some "login" :: login_arguments decoded (proxyEndpoint entry))) w5
      = (Normal c2, w6) ->
    world (exec (Some docker) [Some "push"; Some (target_reference url)]) w6
      = (Normal c3, w7) ->
    behaviour w
      (tr ++ tag_events docker (target_reference url) (Normal c1)
          ++ login_events docker decoded (proxyEndpoint entry) (Normal c2)
          ++ push_events docker (target_reference url) (Normal c3)
          ++ finish_events (target_reference url))
      (Normal tt).

End Behaviour.

(** ** Laws of the interpreter *)

Section RunLaws.

Variable W : Type.
Variable world : forall c : call, W -> completion (resp c) * W.

Lemma run_bind {A B} (p : Prog A) (f : A -> Prog B) this w :
  run world (Prog.bind p f) this w = chain (run world p this w) (fun a => run world (f a)).
Proof.
  revert this w.
  induction p as [a|e|o k IH|c k IH|k IH|s k IH]; intros this w; cbn [Prog.bind run].
  - unfold chain, prepend. cbn [result final_this final_world trace app].
    destruct (run world (f a) this w); reflexivity.
  - reflexivity.
  - rewrite IH. unfold chain, prepend. cbn [after result trace final_this final_world].
    destruct (result (run world k this w)); reflexivity.
  - rewrite IH. unfold chain, prepend. cbn [after result trace final_this final_world].
    destruct (result (run world (k (fst (world c w))) this (snd (world c w)))); reflexivity.
  - apply IH.
  - apply IH.
Qed.

(** The two lookups of [locateDockerExecutable]. *)
Lemma run_locateDockerExecutable this w :
  exists lk o w',
    lookup_outcome world w lk o w' /\
    run world locateDockerExecutable this w =
      {| trace := lk;
         result := match o with
                   | Some path => Normal path
                   | None => Abrupt (new_Error "Cannot find docker command line executable")
                   end;
         final_this := this;
         final_world := w' |}.
Proof.
  unfold locateDockerExecutable, dockerExecutables.
  cbn [run after trace result final_this final_world fst snd bind ret raise catch
       Monad_Prog MonadExc_Prog Prog.bind Prog.try_catch locate_loop await].
  destruct (world (which "docker" true) w) as [r1 w1] eqn:E1.
  destruct (found r1) as [path|] eqn:F1.
  - exists [Called (which "docker" true) r1], (Some path), w1. split.
    + eapply first_found; eassumption.
    + destruct r1 as [[|c1 t1]|e1]; try discriminate F1.
      injection F1 as <-. reflexivity.
  - destruct (world (which "docker.exe" true) w1) as [r2 w2] eqn:E2.
    exists [Called (which "docker" true) r1; Called (which "docker.exe" true) r2], (found r2), w2.
    split.
    + eapply second_tried; try eassumption; reflexivity.
    + destruct r1 as [[|c1 t1]|e1]; try discriminate F1;
        cbn [fst snd Prog.bind Prog.try_catch run after truthy]; rewrite E2;
        destruct r2 as [[|c2 t2]|e2]; reflexivity.
Qed.

(** The same, with the events, the outcome and the world that is left chosen
    before the object: the lookups do not look at it. *)
Lemma run_locateDockerExecutable_uniform w :
  exists lk o w',
    forall this,
      run world locateDockerExecutable this w =
        {| trace := lk;
           result := match o with
                     | Some path => Normal path
                     | None => Abrupt (new_Error "Cannot find docker command line executable")
                     end;
           final_this := this;
           final_world := w' |}.
Proof.
  unfold locateDockerExecutable, dockerExecutables.
  cbn [run after trace result final_this final_world fst snd bind ret raise catch
       Monad_Prog MonadExc_Prog Prog.bind Prog.try_catch locate_loop await].
  destruct (world (which "docker" true) w) as [r1 w1] eqn:E1.
  destruct (found r1) as [path|] eqn:F1.
  - exists [Called (which "docker" true) r1], (Some path), w1. intros this.
    destruct r1 as [[|c1 t1]|e1]; try discriminate F1.
    injection F1 as <-. reflexivity.
  - destruct (world (which "docker.exe" true) w1) as [r2 w2] eqn:E2.
    exists [Called (which "docker" true) r1; Called (which "docker.exe" true) r2], (found r2), w2.
    intros this.
    destruct r1 as [[|c1 t1]|e1]; try discriminate F1;
      cbn [fst snd Prog.bind Prog.try_catch run after truthy]; rewrite E2;
      destruct r2 as [[|c2 t2]|e2]; reflexivity.
Qed.

End RunLaws.

(** ** Stepping through a run *)

Ltac unfold_task_in H :=
  unfold execute, createServiceClients, getEcrAuthorizationData,
    createRepositoryIfNeeded, tagImage, loginToRegistry, pushImageToECR,
    runDockerCommand in H.

(** Reduction of a run as far as the program is known. *)
Ltac crunch_in H :=
  cbn [run after prepend chain trace result final_this final_world fst snd
       bind ret raise catch get put
       Monad_Prog MonadExc_Prog MonadState_Prog
       Prog.bind Prog.try_catch
       ecrClient dockerPath negb nth_error
       await emit lift prop log with_ecrClient] in H.

Ltac crunch :=
  cbn [run after prepend chain trace result final_this final_world fst snd
       bind ret raise catch get put
       Monad_Prog MonadExc_Prog MonadState_Prog
       Prog.bind Prog.try_catch
       ecrClient dockerPath negb nth_error
       await emit lift prop log with_ecrClient].

(** One step of a run kept in hypothesis [H]: reduce up to the next answer of
    the outside world or the next test on the inputs, and split on it. *)
Ltac step world H :=
  crunch_in H;
  match type of H with
  | context [run world (Prog.bind (locateDockerExecutable) ?K) ?s ?w] =>
      rewrite (run_bind world locateDockerExecutable K s w) in H;
      let lk := fresh "lk" in
      let o := fresh "o" in
      let w' := fresh "w" in
      let Hlk := fresh "Hlk" in
      let Hrun := fresh "Hrun" in
      destruct (run_locateDockerExecutable world s w) as (lk & o & w' & Hlk & Hrun);
      rewrite Hrun in H; clear Hrun;
      destruct o
  | context [world ?c ?w] =>
      is_var w;
      let E := fresh "E" in
      destruct (world c w) as [[?|?] ?] eqn:E
  | context [prop (authorizationData ?r)] =>
      destruct (authorizationData r) as [[|? ?]|] eqn:?
  | context [lift (?f ?x)] => destruct (f x) eqn:?
  | context [if code_is ?e ?c then _ else _] => destruct (code_is e c) eqn:?
  | context [if String.eqb (imageSource ?p) ?s then _ else _] =>
      destruct (String.eqb (imageSource p) s) eqn:?
  | context [if autoCreateRepository ?p then _ else _] =>
      destruct (autoCreateRepository p) eqn:?
  | context [if truthy (outputVariable ?p) then _ else _] =>
      destruct (truthy (outputVariable p)) eqn:?
  end.

Ltac walk world H := unfold_task_in H; repeat step world H; crunch_in H.

Ltac unfold_execute := unfold execute.

(** Tests whose outcome a walk has recorded. *)
Ltac decided :=
  repeat match goal with
         | H : ?b = _ |- context [if ?b then _ else _] => rewrite H
         end.

(** A premise of a behaviour, from the answers collected along a walk. *)
Ltac premise :=
  solve [eassumption
        |reflexivity
        |unfold source_reference; decided; eassumption
        |econstructor; premise].

(** Two descriptions of the same events. *)
Ltac same_events :=
  unfold tag_events, login_events, push_events, finish_events, docker_events,
    token_events, source_event, source_reference, target_reference, login_arguments;
  decided; cbn [app]; rewrite <- ?app_assoc; cbn [app]; reflexivity.

(** ** Reading a behaviour *)

Section Reading.

Variable W : Type.
Variable world : forall c : call, W -> completion (resp c) * W.
Variable p : TaskParameters.

Lemma lookup_found w lk docker w' :
  lookup_outcome world w lk (Some docker) w' ->
  (exists r1,
      lk = [Called (which "docker" true) r1] /\ found r1 = Some docker)
  \/ (exists r1 r2,
         lk = [Called (which "docker" true) r1; Called (which "docker.exe" true) r2]
         /\ found r1 = None /\ found r2 = Some docker).
Proof.
  intros H. inversion H; subst.
  - left. eexists. split; [reflexivity|assumption].
  - right. do 2 eexists. repeat split; assumption.
Qed.

Lemma lookup_missing w lk w' :
  lookup_outcome world w lk None w' ->
  exists r1 r2,
    lk = [Called (which "docker" true) r1; Called (which "docker.exe" true) r2]
    /\ found r1 = None /\ found r2 = None.
Proof.
  intros H. inversion H; subst.
  do 2 eexists. repeat split; assumption.
Qed.

Lemma repository_step_done client w steps w' :
  repository_step world p client w steps (Normal tt) w' ->
  (autoCreateRepository p = false /\ steps = [])
  \/ (autoCreateRepository p = true /\
      steps =
        [Output (console_log "TestingForRepository" [Some (repositoryName p)]);
         Called (describeRepositories client [repositoryName p]) (Normal tt)])
  \/ (autoCreateRepository p = true /\
      exists e,
        code_is e "RepositoryNotFoundException" = true /\
        steps =
          [Output (console_log "TestingForRepository" [Some (repositoryName p)]);
           Called (describeRepositories client [repositoryName p]) (Abrupt e);
           Output (console_log "CreatingRepository" []);
           Called (createRepository client (repositoryName p)) (Normal tt)]).
Proof.
  intros H. inversion H; subst.
  - left. split; [assumption|reflexivity].
  - right. left. split; [assumption|reflexivity].
  - right. right. split; [assumption|]. eexists. split; [eassumption|reflexivity].
Qed.

Lemma repository_step_failed client w steps e w' :
  repository_step world p client w steps (Abrupt e) w' ->
  autoCreateRepository p = true /\
  exists e0,
    (code_is e0 "RepositoryNotFoundException" = true /\
     steps =
       [Output (console_log "TestingForRepository" [Some (repositoryName p)]);
        Called (describeRepositories client [repositoryName p]) (Abrupt e0);
        Output (console_log "CreatingRepository" []);
        Called (createRepository client (repositoryName p)) (Abrupt e)])
    \/ (code_is e0 "RepositoryNotFoundException" = false /\
        e = new_Error ("Error testing for repository existence: " ++ toString e0) /\
        steps =
          [Output (console_log "TestingForRepository" [Some (repositoryName p)]);
           Called (describeRepositories client [repositoryName p]) (Abrupt e0)]).
Proof.
  intros H. inversion H; subst; (split; [assumption|]); eexists.
  - left. split; [eassumption|reflexivity].
  - right. repeat split. assumption.
Qed.

End Reading.

(** Opening the layers of a behaviour down to its events. *)
Ltac head_of t :=
  match t with
  | ?f _ => head_of f
  | _ => t
  end.

Ltac expose :=
  repeat match goal with
         | H : ?T |- _ =>
             let h := head_of T in
             first [constr_eq h @prepared | constr_eq h @authorized | constr_eq h @prelude];
             destruct H
         | H : lookup_outcome _ _ _ (Some _) _ |- _ =>
             apply lookup_found in H;
             destruct H as [(? & -> & ?)|(? & ? & -> & ? & ?)]
         | H : lookup_outcome _ _ _ None _ |- _ =>
             apply lookup_missing in H;
             destruct H as (? & ? & -> & ? & ?)
         | H : repository_step _ _ _ _ _ (Normal tt) _ |- _ =>
             apply repository_step_done in H;
             destruct H as [(? & ->)|[(? & ->)|(? & ? & ? & ->)]]
         | H : repository_step _ _ _ _ _ (Abrupt _) _ |- _ =>
             apply repository_step_failed in H;
             destruct H as (? & ? & [(? & ->)|(? & -> & ->)])
         end.

(** Whether the output variable is set, for facts that reach the end of a run. *)
Ltac finish_cases :=
  try match goal with
      | |- context [finish_events ?p _] =>
          unfold finish_events; destruct (truthy (outputVariable p)) eqn:?
      end.

(** Membership in a list that is known. *)
Ltac pick := solve [repeat first [left; reflexivity | right]].

Ltac among H :=
  repeat (destruct H as [H|H]; try discriminate H); try contradiction.

(** ** Facts about the task *)

Section Facts.

Variable W : Type.
Variable world : forall c : call, W -> completion (resp c) * W.
Variable parse : option string -> completion Url.
Variable base64_decode : option string -> completion string.
Variable imageNameSource : string.

Local Abbreviation execute := (execute parse base64_decode imageNameSource).
Local Abbreviation run := (run world).

Lemma behaviour_cast p w t t' r :
  behaviour world parse base64_decode imageNameSource p w t r ->
  t = t' ->
  behaviour world parse base64_decode imageNameSource p w t' r.
Proof. intros H <-. exact H. Qed.

(** Every run of [execute] is one of the behaviours. *)
Lemma execute_behaviour p this w :
  behaviour world parse base64_decode imageNameSource p w
    (trace (run (execute p) this w)) (result (run (execute p) this w)).
Proof.
  remember (run (execute p) this w) as R eqn:HR.
  walk world HR.
  all: subst R; cbn [after prepend trace result app].
  all: repeat match goal with
              | u : resp (describeRepositories _ _) |- _ => destruct u
              | u : resp (createRepository _ _) |- _ => destruct u
              end.
  all: eapply behaviour_cast; [solve [econstructor; premise]|same_events].
Qed.

Ltac behaviours p this w tr res B :=
  pose proof (execute_behaviour p this w) as B; revert B;
  generalize (result (run (execute p) this w));
  generalize (trace (run (execute p) this w));
  intros tr res B.

(** *** Strings *)

Lemma append_empty_r (s : string) : s ++ "" = s.
Proof.
  induction s as [|c s IH]; cbn; [reflexivity|].
  rewrite IH. reflexivity.
Qed.

Lemma split_nonempty sep s : split sep s <> [].
Proof.
  destruct s as [|c s]; cbn; [discriminate|].
  destruct (Ascii.eqb c sep); [discriminate|].
  destruct (split sep s); discriminate.
Qed.

(** A string without the separator is a single segment. *)
Lemma split_without sep s : occurs sep s = false -> split sep s = [s].
Proof.
  induction s as [|c s IH]; cbn; [reflexivity|].
  intros H. apply orb_false_elim in H as [Hc Hs].
  rewrite Hc, (IH Hs). reflexivity.
Qed.

(** The first segment ends at the first separator. *)
Lemma split_at sep u rest :
  occurs sep u = false -> split sep (u ++ String sep rest) = u :: split sep rest.
Proof.
  induction u as [|c u IH]; cbn.
  - intros _. rewrite Ascii.eqb_refl. reflexivity.
  - intros H. apply orb_false_elim in H as [Hc Hu].
    rewrite Hc, (IH Hu). reflexivity.
Qed.

Lemma tagged_name_suffix name tag :
  constructTaggedImageName name tag =
  name ++ (if truthy tag then ":" ++ template tag else "").
Proof.
  unfold constructTaggedImageName.
  destruct (truthy tag); [reflexivity|].
  symmetry. apply append_empty_r.
Qed.

(** C1. A successful run requests the authorization token, then makes the
    requests of the repository step (none unless [autoCreateRepository],
    else the existence query, followed by the creation when the query
    reported the repository missing), then tags, logs in and pushes; every
    entry carries the completion of its call, so each call had completed
    when the next one was made. *)
Theorem execute_order p this w :
  result (run (execute p) this w) = Normal tt ->
  exists client response docker source target credentials repository_steps c1 c2 c3,
    external_actions (trace (run (execute p) this w)) =
      Called (getAuthorizationToken client) (Normal response)
      :: repository_steps
      ++ [Called (exec (Some docker) [Some "tag"; Some source; Some target]) (Normal c1);
          Called (exec (Some docker) (Some "login" :: credentials)) (Normal c2);
          Called (exec (Some docker) [Some "push"; Some target]) (Normal c3)]
    /\ (if autoCreateRepository p then
          repository_steps =
            [Called (describeRepositories client [repositoryName p]) (Normal tt)]
          \/ exists e,
               code_is e "RepositoryNotFoundException" = true /\
               repository_steps =
                 [Called (describeRepositories client [repositoryName p]) (Abrupt e);
                  Called (createRepository client (repositoryName p)) (Normal tt)]
        else repository_steps = []).
Proof.
  behaviours p this w tr res B.
  intros Hok. destruct B; try discriminate Hok.
  expose.
  all: unfold finish_events; destruct (truthy (outputVariable p)); cbn.
  all: match goal with Hb : autoCreateRepository _ = _ |- _ => rewrite Hb end.
  all: do 6 eexists.
  all: first
         [exists []; do 3 eexists; split; reflexivity
         |eexists [_]; do 3 eexists; split; [reflexivity|left; reflexivity]
         |eexists [_; _]; do 3 eexists; split;
          [reflexivity|right; eexists; split; [eassumption|reflexivity]]].
Qed.

(** C2. The first container command of any run is the tagging, and its
    source argument is the name joined with the tag when the image is given
    by name, and the image id otherwise; in the second case the program does
    not depend on the source name and tag at all. *)
Theorem source_image_reference p this w :
  (forall c rest,
      subprocesses (trace (run (execute p) this w)) = c :: rest ->
      exists docker target,
        c = exec (Some docker)
              [Some "tag";
               Some (if String.eqb (imageSource p) imageNameSource
                     then constructTaggedImageName (sourceImageName p) (sourceImageTag p)
                     else sourceImageId p);
               Some target])
  /\ (imageSource p <> imageNameSource ->
      forall name tag, execute (with_source_image p name tag) = execute p).
Proof.
  split.
  - behaviours p this w tr res B.
    intros c rest Hsub.
    destruct B; expose; cbn in Hsub; try discriminate Hsub.
    all: injection Hsub as <- _; do 2 eexists; reflexivity.
  - intros Hne name tag.
    apply String.eqb_neq in Hne.
    unfold_execute.
    cbn [with_source_image imageSource sourceImageId repositoryName pushTag
         autoCreateRepository outputVariable].
    rewrite Hne. reflexivity.
Qed.


(** C4. Without [autoCreateRepository], the only request a run makes to the
    registry is the one for the authorization token: no existence query, no
    creation. *)
Theorem repository_requests_only_when_asked p this w :
  autoCreateRepository p = false ->
  registry_requests (trace (run (execute p) this w)) = []
  \/ exists client,
       registry_requests (trace (run (execute p) this w)) =
         [getAuthorizationToken client].
Proof.
  intros Hauto.
  behaviours p this w tr res B.
  destruct B; expose; try congruence; finish_cases; cbn.
  all: first [left; reflexivity | right; eexists; reflexivity].
Qed.

(** C5. A successful run with a non-empty [outputVariable] sets that variable
    and no other, once, to the reference that was pushed: the host of the
    [proxyEndpoint] of the first authorization entry as interpolated in the
    template (a [null] host reads [null]), a slash, the repository name and,
    when [pushTag] is non-empty, a colon and the tag.  With an empty or
    absent [outputVariable] no run sets any variable. *)
Theorem output_variable p this w :
  (forall v,
      outputVariable p = Some v -> v <> "" ->
      result (run (execute p) this w) = Normal tt ->
      exists response entry rest url docker,
        In response (token_responses (trace (run (execute p) this w)))
        /\ authorizationData response = Some (entry :: rest)
        /\ parse (proxyEndpoint entry) = Normal url
        /\ variables_set (trace (run (execute p) this w)) =
             [(v, template_nullable (host url) ++ "/" ++ repositoryName p
                  ++ (if truthy (pushTag p) then ":" ++ template (pushTag p) else ""))]
        /\ In (exec (Some docker)
                 [Some "push";
                  Some (template_nullable (host url) ++ "/" ++ repositoryName p
                        ++ (if truthy (pushTag p) then ":" ++ template (pushTag p) else ""))])
              (subprocesses (trace (run (execute p) this w))))
  /\ (truthy (outputVariable p) = false ->
      variables_set (trace (run (execute p) this w)) = []).
Proof.
  behaviours p this w tr res B.
  split.
  - intros v Hv Hne Hok.
    destruct B; try discriminate Hok.
    expose; unfold finish_events, target_reference;
      rewrite tagged_name_suffix, Hv;
      (destruct v as [|c v]; [congruence|]);
      cbn -[append].
    all: do 5 eexists; repeat split; try eassumption; try reflexivity; pick.
  - intros Hnone.
    destruct B; expose; unfold finish_events; rewrite ?Hnone; reflexivity.
Qed.

(** C6. When the request for the authorization token throws, the task throws
    [Failed to obtain authorization token to log in to ECR, error: ] followed
    by the error, and no container command has been run. *)
Theorem authorization_failure_aborts p this w client e :
  In (client, e) (token_failures (trace (run (execute p) this w))) ->
  result (run (execute p) this w) =
    Abrupt (new_Error
      ("Failed to obtain authorization token to log in to ECR, error: " ++ toString e))
  /\ subprocesses (trace (run (execute p) this w)) = [].
Proof.
  behaviours p this w tr res B.
  destruct B; expose; finish_cases; cbn -[append]; intros Hin; among Hin.
  all: inversion Hin; subst; split; reflexivity.
Qed.

(** C7. [execute] looks for [docker] and, only when that is not found, for
    [docker.exe]; every container command of the run uses the first path
    found; and when neither is found the task throws
    [Cannot find docker command line executable] without any request to the
    registry and without any container command.  The only runs without a
    lookup are those in which the client could not be built: they throw the
    error of the construction. *)
Theorem docker_location p this w :
  (exists e,
      fst (world (createAndConfigureSdkClient "2015-09-21") w) = Abrupt e
      /\ result (run (execute p) this w) = Abrupt e
      /\ lookups (trace (run (execute p) this w)) = []
      /\ registry_requests (trace (run (execute p) this w)) = []
      /\ subprocesses (trace (run (execute p) this w)) = [])
  \/ (exists r1 path,
        lookups (trace (run (execute p) this w)) = [Called (which "docker" true) r1]
        /\ found r1 = Some path
        /\ forall tool args,
             In (exec tool args) (calls (trace (run (execute p) this w))) ->
             tool = Some path)
  \/ (exists r1 r2,
        lookups (trace (run (execute p) this w)) =
          [Called (which "docker" true) r1; Called (which "docker.exe" true) r2]
        /\ found r1 = None
        /\ match found r2 with
           | Some path =>
               forall tool args,
                 In (exec tool args) (calls (trace (run (execute p) this w))) ->
                 tool = Some path
           | None =>
               result (run (execute p) this w) =
                 Abrupt (new_Error "Cannot find docker command line executable")
               /\ registry_requests (trace (run (execute p) this w)) = []
               /\ subprocesses (trace (run (execute p) this w)) = []
           end).
Proof.
  behaviours p this w tr res B.
  destruct B; expose; finish_cases; cbn -[append].
  all: first
         [left; eexists;
          split;
          [match goal with
           | H : world (createAndConfigureSdkClient _) _ = _ |- _ => rewrite H
           end; reflexivity
          |repeat split; reflexivity]
         |right; left; do 2 eexists;
          split; [reflexivity|split; [eassumption|]];
          intros tool args Hin; among Hin; inversion Hin; reflexivity
         |right; right; do 2 eexists;
          split; [reflexivity|split; [eassumption|]];
          match goal with Hf : found _ = _ |- context [match found _ with _ => _ end] =>
            rewrite Hf
          end;
          first [repeat split; reflexivity
                |intros tool args Hin; among Hin; inversion Hin; reflexivity]].
Qed.

(** C8. [constructTaggedImageName] joins the name and a non-empty tag with a
    colon, and returns the name itself when the tag is empty or absent. *)
Theorem constructTaggedImageName_cases name c tag :
  constructTaggedImageName name (Some (String c tag)) = name ++ ":" ++ String c tag
  /\ constructTaggedImageName name (Some "") = name
  /\ constructTaggedImageName name None = name.
Proof.
  repeat split.
Qed.

(** C9. With a token that decodes, [loginToRegistry] runs exactly one
    command, [login -u user -p password endpoint], where [user] is what
    precedes the first colon of the decoded token (all of it when there is
    no colon) and [password] is what lies between the first colon and the
    second, or the end; it is absent when the token has no colon. *)
Theorem login_credentials token endpoint this w decoded :
  base64_decode token = Normal decoded ->
  exists user password,
    calls (trace (run (loginToRegistry base64_decode token endpoint) this w)) =
      [exec (dockerPath this)
         [Some "login"; Some "-u"; Some user; Some "-p"; password; endpoint]]
    /\ (occurs ":" decoded = false -> user = decoded /\ password = None)
    /\ (forall u rest,
          occurs ":" u = false -> decoded = u ++ ":" ++ rest -> user = u)
    /\ (forall u pw,
          occurs ":" u = false -> occurs ":" pw = false ->
          decoded = u ++ ":" ++ pw -> password = Some pw)
    /\ (forall u pw rest,
          occurs ":" u = false -> occurs ":" pw = false ->
          decoded = u ++ ":" ++ pw ++ ":" ++ rest -> password = Some pw).
Proof.
  intros Hdecoded.
  exists (hd "" (split ":" decoded)), (nth_error (split ":" decoded) 1).
  split.
  - unfold loginToRegistry, runDockerCommand. rewrite Hdecoded.
    cbn -[split].
    destruct (split ":" decoded) eqn:Hs; [exfalso; exact (split_nonempty _ _ Hs)|].
    match goal with
    | |- context [world ?c ?w0] => destruct (world c w0) as [[?|?] ?]
    end; reflexivity.
  - split; [|split; [|split]].
    + intros Hnone. rewrite (split_without _ _ Hnone). split; reflexivity.
    + intros u rest Hu ->. cbn [append]. rewrite (split_at _ _ _ Hu). reflexivity.
    + intros u pw Hu Hpw ->. cbn [append].
      rewrite (split_at _ _ _ Hu), (split_without _ _ Hpw). reflexivity.
    + intros u pw rest Hu Hpw ->. cbn [append].
      rewrite (split_at _ _ _ Hu), (split_at _ _ _ Hpw). reflexivity.
Qed.

(** C10. [getEcrAuthorizationData] returns element [0] of the array of a
    successful response without looking at its length, so the result is
    [undefined] for an empty array.  A run of [execute] succeeds only if the
    response had a first entry whose [proxyEndpoint] the parser accepted; on
    an empty array the task throws a [TypeError] on reading [proxyEndpoint],
    with the token request as its only request to the registry and no
    container command. *)
Theorem authorization_entry_unchecked p this w :
  (forall client response entries,
      ecrClient this = Some client ->
      fst (world (getAuthorizationToken client) w) = Normal response ->
      authorizationData response = Some entries ->
      result (run getEcrAuthorizationData this w) = Normal (nth_error entries 0))
  /\ (result (run (execute p) this w) = Normal tt ->
      exists response entry rest url,
        In response (token_responses (trace (run (execute p) this w)))
        /\ authorizationData response = Some (entry :: rest)
        /\ parse (proxyEndpoint entry) = Normal url)
  /\ (forall response,
        In response (token_responses (trace (run (execute p) this w))) ->
        authorizationData response = Some [] ->
        (exists message,
            result (run (execute p) this w) = Abrupt (TypeError message))
        /\ (exists client,
              registry_requests (trace (run (execute p) this w)) =
                [getAuthorizationToken client])
        /\ subprocesses (trace (run (execute p) this w)) = []).
Proof.
  split.
  - intros client response entries Hclient Hresponse Hentries.
    unfold getEcrAuthorizationData. crunch.
    rewrite Hclient. crunch.
    rewrite Hresponse. crunch.
    rewrite Hentries. reflexivity.
  - behaviours p this w tr res B.
    split.
    + intros Hok. destruct B; try discriminate Hok.
      expose; finish_cases; cbn -[append].
      all: do 4 eexists; split; [pick|split; eassumption].
    + intros response.
      destruct B; expose; finish_cases; cbn -[append]; intros Hin Hempty; among Hin.
      all: subst; try congruence.
      all: split; [eexists; reflexivity|split; [eexists; reflexivity|reflexivity]].
Qed.

(** ** Further facts *)

(** *** Failures on the way *)

(** X1. When the client cannot be built, the task throws the error of the
    construction itself, and that construction is the only call it has made:
    no lookup, no request, no command, no variable. *)
Theorem client_failure_stops_everything p this w e :
  fst (world (createAndConfigureSdkClient "2015-09-21") w) = Abrupt e ->
  result (run (execute p) this w) = Abrupt e
  /\ calls (trace (run (execute p) this w)) = [createAndConfigureSdkClient "2015-09-21"]
  /\ variables_set (trace (run (execute p) this w)) = [].
Proof.
  intros He.
  behaviours p this w tr res B.
  destruct B; expose;
    match goal with
    | H : world (createAndConfigureSdkClient _) _ = _ |- _ => rewrite H in He
    end;
    cbn [fst] in He; try discriminate He.
  injection He as <-. repeat split.
Qed.

(** X2. Every request to the registry goes through the client that
    [createAndConfigureSdkClient] returned at the start of the run. *)
Theorem requests_through_one_client p this w c :
  In c (registry_requests (trace (run (execute p) this w))) ->
  exists client,
    fst (world (createAndConfigureSdkClient "2015-09-21") w) = Normal client
    /\ client_of c = Some client.
Proof.
  behaviours p this w tr res B.
  destruct B; expose; finish_cases; cbn -[append]; intros Hin; among Hin.
  all: subst c; eexists;
    (split; [match goal with
             | H : world (createAndConfigureSdkClient _) _ = _ |- _ => rewrite H
             end; reflexivity
            |reflexivity]).
Qed.

(** X3. When the repository is missing and its creation throws, the task
    throws the error of the creation as it is, not wrapped, and runs no
    container command; the creation was for the repository of the inputs and
    followed a query that reported it missing. *)
Theorem creation_failure_propagates p this w client name e :
  In (client, name, e) (creation_failures (trace (run (execute p) this w))) ->
  result (run (execute p) this w) = Abrupt e
  /\ name = repositoryName p
  /\ subprocesses (trace (run (execute p) this w)) = []
  /\ exists e0,
       In (client, [name], e0) (query_failures (trace (run (execute p) this w)))
       /\ code_is e0 "RepositoryNotFoundException" = true.
Proof.
  behaviours p this w tr res B.
  destruct B; expose; finish_cases; cbn -[append]; intros Hin; among Hin.
  all: inversion Hin; subst.
  all: repeat split; eexists; (split; [pick|assumption]).
Qed.

(** X4. A successful response that carries no [authorizationData] at all is
    reported like a failed request: the task throws
    [Failed to obtain authorization token to log in to ECR, error: ] followed
    by the [TypeError] of the missing array, and runs no container command.
    (An empty array is another matter, see C10.) *)
Theorem missing_authorization_data p this w response :
  In response (token_responses (trace (run (execute p) this w))) ->
  authorizationData response = None ->
  (exists message,
      result (run (execute p) this w) =
        Abrupt (new_Error
          ("Failed to obtain authorization token to log in to ECR, error: "
           ++ toString (TypeError message))))
  /\ subprocesses (trace (run (execute p) this w)) = []
  /\ variables_set (trace (run (execute p) this w)) = [].
Proof.
  behaviours p this w tr res B.
  destruct B; expose; finish_cases; cbn -[append]; intros Hin Hnone; among Hin.
  all: subst; try congruence.
  all: split; [exists "Cannot read property '0' of undefined"; reflexivity
              |split; reflexivity].
Qed.

(** X5. When the parser throws on the [proxyEndpoint] of the first entry, the
    task throws the parser's error; the token request is its only request to
    the registry, and no container command is run. *)
Theorem rejected_endpoint p this w response entry rest e :
  In response (token_responses (trace (run (execute p) this w))) ->
  authorizationData response = Some (entry :: rest) ->
  parse (proxyEndpoint entry) = Abrupt e ->
  result (run (execute p) this w) = Abrupt e
  /\ (exists client,
        registry_requests (trace (run (execute p) this w)) =
          [getAuthorizationToken client])
  /\ subprocesses (trace (run (execute p) this w)) = [].
Proof.
  behaviours p this w tr res B.
  destruct B; expose; finish_cases; cbn -[append];
    intros Hin Hdata Hparse; among Hin.
  all: subst; try congruence.
  all: match goal with
       | H : authorizationData ?r = Some _, H' : authorizationData ?r = Some _ |- _ =>
           rewrite H in H'; injection H' as <- <-
       end;
       try congruence.
  all: match goal with
       | H : parse ?x = _, H' : parse ?x = _ |- _ =>
           rewrite H in H'; injection H' as <-
       end.
  all: split; [reflexivity|split; [eexists; reflexivity|reflexivity]].
Qed.

(** *** The container commands *)

(** X6. When a container command throws, the task throws the same error, that
    command is the last one run, and no variable is set. *)
Theorem command_failure_propagates p this w c e :
  In (c, e) (subprocess_failures (trace (run (execute p) this w))) ->
  result (run (execute p) this w) = Abrupt e
  /\ (exists earlier, subprocesses (trace (run (execute p) this w)) = (earlier ++ [c])%list)
  /\ variables_set (trace (run (execute p) this w)) = [].
Proof.
  behaviours p this w tr res B.
  destruct B; expose; finish_cases; cbn -[append]; intros Hin; among Hin.
  all: inversion Hin; subst.
  all: split; [reflexivity|split; [|reflexivity]].
  all: first [exists []; reflexivity
             |eexists [_]; reflexivity
             |eexists [_; _]; reflexivity].
Qed.

(** X7. In every run, failed ones included, the container commands are an
    initial part of: tag, login, push, all with the same executable, and tag
    and push with the same target. *)
Theorem commands_in_order p this w :
  exists docker source target credentials,
    subprocesses (trace (run (execute p) this w)) = []
    \/ subprocesses (trace (run (execute p) this w)) =
         [exec (Some docker) [Some "tag"; Some source; Some target]]
    \/ subprocesses (trace (run (execute p) this w)) =
         [exec (Some docker) [Some "tag"; Some source; Some target];
          exec (Some docker) (Some "login" :: credentials)]
    \/ subprocesses (trace (run (execute p) this w)) =
         [exec (Some docker) [Some "tag"; Some source; Some target];
          exec (Some docker) (Some "login" :: credentials);
          exec (Some docker) [Some "push"; Some target]].
Proof.
  behaviours p this w tr res B.
  destruct B; expose; finish_cases; cbn -[append].
  all: first [exists "", "", "", []; left; reflexivity
             |do 3 eexists; exists []; right; left; reflexivity
             |do 4 eexists; right; right; left; reflexivity
             |do 4 eexists; right; right; right; reflexivity].
Qed.

(** X8. The login command of a run takes its credentials from the token of
    the first authorization entry of the response, and its last argument is
    that entry's [proxyEndpoint] as it came, not the host used for the image
    reference. *)
Theorem login_uses_first_entry p this w tool args :
  In (exec tool (Some "login" :: args)) (subprocesses (trace (run (execute p) this w))) ->
  exists response entry rest decoded,
    In response (token_responses (trace (run (execute p) this w)))
    /\ authorizationData response = Some (entry :: rest)
    /\ base64_decode (authorizationToken entry) = Normal decoded
    /\ args = [Some "-u"; nth_error (split ":" decoded) 0;
               Some "-p"; nth_error (split ":" decoded) 1;
               proxyEndpoint entry].
Proof.
  behaviours p this w tr res B.
  destruct B; expose; finish_cases; cbn -[append split nth_error];
    intros Hin; among Hin.
  all: inversion Hin; subst.
  all: do 4 eexists;
    (split; [pick|split; [eassumption|split; [eassumption|reflexivity]]]).
Qed.

(** X9. When the token of the first entry does not decode, the task never
    logs in nor pushes, and sets no variable; the image may have been tagged
    already, and if the tagging went through the task throws the decoder's
    error. *)
Theorem undecodable_token p this w response entry rest e :
  In response (token_responses (trace (run (execute p) this w))) ->
  authorizationData response = Some (entry :: rest) ->
  base64_decode (authorizationToken entry) = Abrupt e ->
  (subprocesses (trace (run (execute p) this w)) = []
   \/ exists docker source target,
        subprocesses (trace (run (execute p) this w)) =
          [exec (Some docker) [Some "tag"; Some source; Some target]])
  /\ variables_set (trace (run (execute p) this w)) = []
  /\ (subprocesses (trace (run (execute p) this w)) <> [] ->
      subprocess_failures (trace (run (execute p) this w)) = [] ->
      result (run (execute p) this w) = Abrupt e).
Proof.
  behaviours p this w tr res B.
  destruct B; expose; finish_cases; cbn -[append];
    intros Hin Hdata Hdecode; among Hin.
  all: subst; try congruence.
  all: match goal with
       | H : authorizationData ?r = Some _, H' : authorizationData ?r = Some _ |- _ =>
           rewrite H in H'; injection H' as <- <-
       end;
       try congruence.
  all: split; [first [left; reflexivity | right; do 3 eexists; reflexivity]|].
  all: split; [reflexivity|].
  all: intros Hsome Hnofail;
    first [exfalso; apply Hsome; reflexivity | discriminate Hnofail | congruence].
Qed.

(** X10. When the parser finds no host in the [proxyEndpoint], the image is
    tagged under the name [null/] followed by the repository name and tag. *)
Theorem null_host_in_target p this w response entry rest url tool source target :
  In response (token_responses (trace (run (execute p) this w))) ->
  authorizationData response = Some (entry :: rest) ->
  parse (proxyEndpoint entry) = Normal url ->
  host url = None ->
  In (exec tool [Some "tag"; source; Some target])
     (subprocesses (trace (run (execute p) this w))) ->
  target = "null/" ++ constructTaggedImageName (repositoryName p) (pushTag p).
Proof.
  behaviours p this w tr res B.
  destruct B; expose; finish_cases; cbn -[append];
    intros Hin Hdata Hparse Hhost Htag; among Hin; among Htag.
  all: subst; try congruence.
  all: match goal with
       | H : authorizationData ?r = Some _, H' : authorizationData ?r = Some _ |- _ =>
           rewrite H in H'; injection H' as <- <-
       end.
  all: match goal with
       | H : parse ?x = _, H' : parse ?x = _ |- _ =>
           rewrite H in H'; injection H' as <-
       end.
  all: inversion Htag; subst; unfold target_reference; rewrite Hhost; reflexivity.
Qed.


(** *** What a run leaves behind *)

(** X12. A variable is set only by a run that succeeds, and only when
    [outputVariable] is non-empty: a failed run never sets one. *)
Theorem variable_only_on_success p this w :
  variables_set (trace (run (execute p) this w)) <> [] ->
  result (run (execute p) this w) = Normal tt
  /\ truthy (outputVariable p) = true.
Proof.
  behaviours p this w tr res B.
  destruct B; expose; finish_cases; cbn -[append]; intros Hset;
    try (exfalso; apply Hset; reflexivity).
  all: split; reflexivity.
Qed.

(** X13. The line [TaskCompleted] is written to the console by the runs that
    succeed and by no other. *)
Theorem completion_logged_iff_success p this w :
  In ("TaskCompleted", []) (logged (trace (run (execute p) this w)))
  <-> result (run (execute p) this w) = Normal tt.
Proof.
  behaviours p this w tr res B.
  destruct B; expose; finish_cases; unfold source_event;
    destruct (String.eqb (imageSource p) imageNameSource); cbn -[append].
  all: split; [intros Hin; among Hin; reflexivity | intros Hok; try discriminate Hok; pick].
Qed.

(** X14. [execute] sets both fields of the object before it reads them: the
    events, the result and the world it leaves do not depend on what the
    fields held when it was called. *)
Theorem fields_set_before_use p this this' w :
  trace (run (execute p) this w) = trace (run (execute p) this' w)
  /\ result (run (execute p) this w) = result (run (execute p) this' w)
  /\ final_world (run (execute p) this w) = final_world (run (execute p) this' w).
Proof.
  unfold_execute. unfold createServiceClients. crunch.
  destruct (world (createAndConfigureSdkClient "2015-09-21") w) as [[client|e] w1];
    crunch; [|repeat split].
  rewrite !run_bind.
  destruct (run_locateDockerExecutable_uniform world w1) as (lk & o & w2 & Hrun).
  rewrite !Hrun.
  destruct o; crunch; repeat split.
Qed.

(** *** The operations one by one *)

Lemma found_some (r : completion string) path :
  found r = Some path -> r = Normal path /\ path <> "".
Proof.
  destruct r as [[|c s]|e]; cbn; intros H; try discriminate H.
  injection H as <-. split; [reflexivity|discriminate].
Qed.

(** X15. [locateDockerExecutable] returns only a non-empty path that [which]
    returned for one of the two names; whatever [which] threw is dropped, so
    its only error is [Cannot find docker command line executable]; and it
    leaves the object as it was. *)
Theorem locateDockerExecutable_result this w :
  (forall path,
      result (run locateDockerExecutable this w) = Normal path ->
      path <> ""
      /\ exists tool,
           In tool dockerExecutables
           /\ In (Called (which tool true) (Normal path))
                 (trace (run locateDockerExecutable this w)))
  /\ (forall e,
        result (run locateDockerExecutable this w) = Abrupt e ->
        e = new_Error "Cannot find docker command line executable")
  /\ final_this (run locateDockerExecutable this w) = this.
Proof.
  destruct (run_locateDockerExecutable world this w) as (lk & o & w' & Hlk & ->).
  cbn [result trace final_this].
  split; [|split; [|reflexivity]].
  - intros path Hpath. destruct o as [docker|]; [|discriminate Hpath].
    injection Hpath as ->.
    apply lookup_found in Hlk.
    destruct Hlk as [(r1 & -> & Hfound)|(r1 & r2 & -> & _ & Hfound)];
      apply found_some in Hfound as [-> Hne]; (split; [exact Hne|]).
    + exists "docker". split; [left; reflexivity|left; reflexivity].
    + exists "docker.exe". split; [right; left; reflexivity|right; left; reflexivity].
  - intros e He. destruct o; [discriminate He|].
    injection He as <-. reflexivity.
Qed.

(** X16. Whatever goes wrong in [getEcrAuthorizationData] comes out as an
    [Error] whose message is
    [Failed to obtain authorization token to log in to ECR, error: ]
    followed by the original error: the error the request threw, or the
    [TypeError] of a response without array or of a client that is not set.
    A request that throws always ends so.  The object is left as it was. *)
Theorem authorization_errors_are_wrapped this w :
  (forall client err,
      ecrClient this = Some client ->
      fst (world (getAuthorizationToken client) w) = Abrupt err ->
      result (run getEcrAuthorizationData this w) =
        Abrupt (new_Error
          ("Failed to obtain authorization token to log in to ECR, error: "
           ++ toString err)))
  /\ (forall e,
        result (run getEcrAuthorizationData this w) = Abrupt e ->
        exists err,
          e = new_Error
                ("Failed to obtain authorization token to log in to ECR, error: "
                 ++ toString err)
          /\ ((exists client,
                 ecrClient this = Some client
                 /\ fst (world (getAuthorizationToken client) w) = Abrupt err)
              \/ (exists client response message,
                    ecrClient this = Some client
                    /\ fst (world (getAuthorizationToken client) w) = Normal response
                    /\ authorizationData response = None
                    /\ err = TypeError message)
              \/ (exists message,
                    ecrClient this = None /\ err = TypeError message)))
  /\ final_this (run getEcrAuthorizationData this w) = this.
Proof.
  unfold getEcrAuthorizationData. crunch.
  destruct (ecrClient this) as [client|] eqn:Hclient; crunch.
  - destruct (world (getAuthorizationToken client) w) as [[response|err] w1] eqn:Hworld;
      crunch.
    + destruct (authorizationData response) as [entries|] eqn:Hdata; crunch.
      * split; [|split; [|reflexivity]].
        -- intros client' err' Hc Herr. injection Hc as <-.
           rewrite Hworld in Herr. discriminate Herr.
        -- intros e He. discriminate He.
      * split; [|split; [|reflexivity]].
        -- intros client' err' Hc Herr. injection Hc as <-.
           rewrite Hworld in Herr. discriminate Herr.
        -- intros e He. injection He as <-.
           eexists. split; [reflexivity|].
           right. left. exists client, response. eexists.
           rewrite Hworld. repeat split. exact Hdata.
    + split; [|split; [|reflexivity]].
      * intros client' err' Hc Herr. injection Hc as <-.
        rewrite Hworld in Herr. injection Herr as <-. reflexivity.
      * intros e He. injection He as <-.
        exists err. split; [reflexivity|].
        left. exists client. rewrite Hworld. split; reflexivity.
  - split; [|split; [|reflexivity]].
    + intros client err Hc. discriminate Hc.
    + intros e He. injection He as <-.
      eexists. split; [reflexivity|].
      right. right. eexists. split; reflexivity.
Qed.

(** X17. When the image is given by name, [sourceImageId] plays no part: the
    program is the same whatever the id is. *)
Theorem source_id_not_consulted p id :
  imageSource p = imageNameSource ->
  execute (with_source_id p id) = execute p.
Proof.
  intros Heq.
  apply String.eqb_eq in Heq.
  unfold_execute.
  cbn [with_source_id imageSource sourceImageName sourceImageTag repositoryName
       pushTag autoCreateRepository outputVariable].
  rewrite Heq. reflexivity.
Qed.

Lemma prefix_append (s t : string) : String.prefix s (s ++ t) = true.
Proof.
  induction s as [|c s IH]; cbn.
  - destruct t; reflexivity.
  - destruct (ascii_dec c c) as [_|Hne]; [exact IH|contradiction].
Qed.

Lemma append_same (s t : string) : s ++ t = s -> t = "".
Proof.
  induction s as [|c s IH]; cbn; intros H.
  - exact H.
  - injection H as H. exact (IH H).
Qed.

(** X18. The result of [constructTaggedImageName] always begins with the
    image name, and it is the bare name exactly when the tag is empty or
    absent. *)
Theorem tagged_name_keeps_name name tag :
  String.prefix name (constructTaggedImageName name tag) = true
  /\ (constructTaggedImageName name tag = name <-> truthy tag = false).
Proof.
  rewrite tagged_name_suffix.
  split; [apply prefix_append|].
  destruct (truthy tag).
  - split; [|discriminate].
    intros H. apply append_same in H. discriminate H.
  - split; [reflexivity|intros _; apply append_empty_r].
Qed.

End Facts.

(** ** The facts at work on the sample world *)

Example split_example :
  split ":" "AWS:se:cret" = ["AWS"; "se"; "cret"]
  /\ split ":" "AWS" = ["AWS"]
  /\ split ":" "" = [""].
Proof. repeat split. Qed.

Example sample_calls :
  calls (trace (Sample.go Sample.all_well Sample.parameters)) =
    [createAndConfigureSdkClient "2015-09-21";
     which "docker" true;
     getAuthorizationToken 1;
     describeRepositories 1 ["team/app"];
     createRepository 1 "team/app";
     exec (Some "/usr/bin/docker")
       [Some "tag"; Some "app:latest";
        Some "123456789012.dkr.ecr.us-east-1.amazonaws.com/team/app:v1"];
     exec (Some "/usr/bin/docker")
       [Some "login"; Some "-u"; Some "AWS"; Some "-p"; Some "secret";
        Some "https://123456789012.dkr.ecr.us-east-1.amazonaws.com"];
     exec (Some "/usr/bin/docker")
       [Some "push"; Some "123456789012.dkr.ecr.us-east-1.amazonaws.com/team/app:v1"]].
Proof. reflexivity. Qed.

Example sample_by_id :
  subprocesses (trace (Sample.go Sample.on_windows Sample.by_id)) =
    [exec (Some "C:\docker\docker.exe")
       [Some "tag"; Some "sha256:0123";
        Some "123456789012.dkr.ecr.us-east-1.amazonaws.com/team/app"];
     exec (Some "C:\docker\docker.exe")
       [Some "login"; Some "-u"; Some "AWS"; Some "-p"; Some "secret";
        Some "https://123456789012.dkr.ecr.us-east-1.amazonaws.com"];
     exec (Some "C:\docker\docker.exe")
       [Some "push"; Some "123456789012.dkr.ecr.us-east-1.amazonaws.com/team/app"]]
  /\ variables_set (trace (Sample.go Sample.on_windows Sample.by_id)) = []
  /\ lookups (trace (Sample.go Sample.on_windows Sample.by_id)) =
       [Called (which "docker" true) (Abrupt (Sample.not_found "docker"));
        Called (which "docker.exe" true) (Normal "C:\docker\docker.exe")].
Proof. repeat split. Qed.

Example sample_no_entries :
  result (Sample.go Sample.no_entries Sample.parameters) =
    Abrupt (TypeError "Cannot read property 'proxyEndpoint' of undefined")
  /\ calls (trace (Sample.go Sample.no_entries Sample.parameters)) =
       [createAndConfigureSdkClient "2015-09-21"; which "docker" true;
        getAuthorizationToken 1].
Proof. repeat split. Qed.

Lemma execute_order_witness :
  result (Sample.go Sample.all_well Sample.parameters) = Normal tt
  /\ exists client response docker source target credentials repository_steps c1 c2 c3,
       external_actions (trace (Sample.go Sample.all_well Sample.parameters)) =
         Called (getAuthorizationToken client) (Normal response)
         :: repository_steps
         ++ [Called (exec (Some docker) [Some "tag"; Some source; Some target]) (Normal c1);
             Called (exec (Some docker) (Some "login" :: credentials)) (Normal c2);
             Called (exec (Some docker) [Some "push"; Some target]) (Normal c3)]
       /\ (repository_steps =
             [Called (describeRepositories client ["team/app"]) (Normal tt)]
           \/ exists e,
                code_is e "RepositoryNotFoundException" = true /\
                repository_steps =
                  [Called (describeRepositories client ["team/app"]) (Abrupt e);
                   Called (createRepository client "team/app") (Normal tt)]).
Proof.
  split; [reflexivity|].
  exact (execute_order (Sample.world Sample.all_well) Sample.parse Sample.decode
           "imagename" Sample.parameters new_TaskOperations 0 eq_refl).
Defined.

Lemma source_image_reference_witness :
  (exists docker target,
      hd (exec None []) (subprocesses (trace (Sample.go Sample.all_well Sample.parameters))) =
        exec (Some docker) [Some "tag"; Some "app:latest"; Some target])
  /\ imageSource Sample.by_id <> "imagename"
  /\ execute Sample.parse Sample.decode "imagename"
       (with_source_image Sample.by_id "other" None) =
     execute Sample.parse Sample.decode "imagename" Sample.by_id.
Proof.
  split; [|split].
  - exact (proj1 (source_image_reference (Sample.world Sample.all_well) Sample.parse
                    Sample.decode "imagename" Sample.parameters new_TaskOperations 0)
             _ _ eq_refl).
  - discriminate.
  - apply (proj2 (source_image_reference (Sample.world Sample.all_well) Sample.parse
                    Sample.decode "imagename" Sample.by_id new_TaskOperations 0)).
    discriminate.
Defined.


Lemma repository_requests_only_when_asked_witness :
  autoCreateRepository Sample.by_id = false
  /\ (registry_requests (trace (Sample.go Sample.all_well Sample.by_id)) = []
      \/ exists client,
           registry_requests (trace (Sample.go Sample.all_well Sample.by_id)) =
             [getAuthorizationToken client]).
Proof.
  split; [reflexivity|].
  exact (repository_requests_only_when_asked (Sample.world Sample.all_well) Sample.parse
           Sample.decode "imagename" Sample.by_id new_TaskOperations 0 eq_refl).
Defined.

Lemma output_variable_witness :
  outputVariable Sample.parameters = Some "image"
  /\ "image" <> ""
  /\ result (Sample.go Sample.all_well Sample.parameters) = Normal tt
  /\ truthy (outputVariable Sample.by_id) = false
  /\ (exists url,
        Sample.parse (proxyEndpoint Sample.entry) = Normal url
        /\ variables_set (trace (Sample.go Sample.all_well Sample.parameters)) =
             [("image", template_nullable (host url) ++ "/team/app:v1")])
  /\ variables_set (trace (Sample.go Sample.all_well Sample.by_id)) = [].
Proof.
  split; [reflexivity|].
  split; [discriminate|].
  split; [reflexivity|].
  split; [reflexivity|].
  split.
  - destruct (proj1 (output_variable (Sample.world Sample.all_well) Sample.parse
                       Sample.decode "imagename" Sample.parameters new_TaskOperations 0)
                "image" eq_refl ltac:(discriminate) eq_refl)
      as (response & entry & rest & url & docker & Hin & Hdata & Hurl & Hset & _).
    destruct Hin as [<-|[]].
    injection Hdata as <- _.
    exists url. split; [exact Hurl|exact Hset].
  - exact (proj2 (output_variable (Sample.world Sample.all_well) Sample.parse
                    Sample.decode "imagename" Sample.by_id new_TaskOperations 0)
             eq_refl).
Defined.

Lemma authorization_failure_aborts_witness :
  In (1, Sample.access_denied)
     (token_failures (trace (Sample.go Sample.token_refused Sample.parameters)))
  /\ result (Sample.go Sample.token_refused Sample.parameters) =
       Abrupt (new_Error
         ("Failed to obtain authorization token to log in to ECR, error: "
          ++ toString Sample.access_denied))
  /\ subprocesses (trace (Sample.go Sample.token_refused Sample.parameters)) = [].
Proof.
  split; [left; reflexivity|].
  apply (@authorization_failure_aborts _ (Sample.world Sample.token_refused) Sample.parse
           Sample.decode "imagename" Sample.parameters new_TaskOperations 0
           1 Sample.access_denied).
  left. reflexivity.
Defined.

Lemma login_credentials_witness :
  Sample.decode (Some "QVdTOnNlY3JldA==") = Normal "AWS:secret"
  /\ exists user password,
       calls (trace (run (Sample.world Sample.all_well)
                       (loginToRegistry Sample.decode (Some "QVdTOnNlY3JldA==")
                          (Some "https://registry"))
                       {| ecrClient := Some 1; dockerPath := Some "/usr/bin/docker" |} 0)) =
         [exec (Some "/usr/bin/docker")
            [Some "login"; Some "-u"; Some user; Some "-p"; password;
             Some "https://registry"]]
       /\ user = "AWS" /\ password = Some "secret".
Proof.
  split; [reflexivity|].
  destruct (login_credentials (Sample.world Sample.all_well) Sample.decode
              (Some "QVdTOnNlY3JldA==") (Some "https://registry")
              {| ecrClient := Some 1; dockerPath := Some "/usr/bin/docker" |} 0 eq_refl)
    as (user & password & Hcalls & _ & Huser & Hpassword & _).
  exists user, password.
  split; [exact Hcalls|].
  split.
  - exact (Huser "AWS" "secret" eq_refl eq_refl).
  - exact (Hpassword "AWS" "secret" eq_refl eq_refl eq_refl).
Defined.

Lemma authorization_entry_unchecked_witness :
  result (Sample.go Sample.all_well Sample.parameters) = Normal tt
  /\ In {| authorizationData := Some [] |}
        (token_responses (trace (Sample.go Sample.no_entries Sample.parameters)))
  /\ (exists response entry rest url,
        In response (token_responses (trace (Sample.go Sample.all_well Sample.parameters)))
        /\ authorizationData response = Some (entry :: rest)
        /\ Sample.parse (proxyEndpoint entry) = Normal url)
  /\ (exists message,
        result (Sample.go Sample.no_entries Sample.parameters) = Abrupt (TypeError message))
  /\ subprocesses (trace (Sample.go Sample.no_entries Sample.parameters)) = [].
Proof.
  split; [reflexivity|].
  split; [left; reflexivity|].
  split.
  - exact (proj1 (proj2 (authorization_entry_unchecked (Sample.world Sample.all_well)
                           Sample.parse Sample.decode "imagename" Sample.parameters
                           new_TaskOperations 0))
             eq_refl).
  - destruct (proj2 (proj2 (authorization_entry_unchecked (Sample.world Sample.no_entries)
                              Sample.parse Sample.decode "imagename" Sample.parameters
                              new_TaskOperations 0))
                {| authorizationData := Some [] |} (or_introl eq_refl) eq_refl)
      as (Hthrows & _ & Hnone).
    split; [exact Hthrows|exact Hnone].
Defined.

Lemma docker_location_witness :
  exists r1 r2 path,
    lookups (trace (Sample.go Sample.on_windows Sample.parameters)) =
      [Called (which "docker" true) r1; Called (which "docker.exe" true) r2]
    /\ found r1 = None
    /\ found r2 = Some path
    /\ forall tool args,
         In (exec tool args) (calls (trace (Sample.go Sample.on_windows Sample.parameters))) ->
         tool = Some path.
Proof.
  destruct (docker_location (Sample.world Sample.on_windows) Sample.parse Sample.decode
              "imagename" Sample.parameters new_TaskOperations 0)
    as [(e & He & _)|[(r1 & path & Hlookups & _)|(r1 & r2 & Hlookups & Hfirst & Hsecond)]].
  - discriminate He.
  - discriminate Hlookups.
  - exists r1, r2.
    destruct (found r2) as [path|].
    + exists path. repeat split; assumption.
    + destruct Hsecond as (Hresult & _). discriminate Hresult.
Defined.

(** ** The further facts at work on the sample world *)

Lemma client_failure_stops_everything_witness :
  fst (Sample.world Sample.no_credentials (createAndConfigureSdkClient "2015-09-21") 0) =
    Abrupt (mkError "Error" "Missing credentials" None)
  /\ result (Sample.go Sample.no_credentials Sample.parameters) =
       Abrupt (mkError "Error" "Missing credentials" None)
  /\ calls (trace (Sample.go Sample.no_credentials Sample.parameters)) =
       [createAndConfigureSdkClient "2015-09-21"]
  /\ variables_set (trace (Sample.go Sample.no_credentials Sample.parameters)) = [].
Proof.
  split; [reflexivity|].
  exact (@client_failure_stops_everything _ (Sample.world Sample.no_credentials)
           Sample.parse Sample.decode "imagename" Sample.parameters new_TaskOperations 0
           _ eq_refl).
Defined.

Lemma requests_through_one_client_witness :
  In (createRepository 1 "team/app")
     (registry_requests (trace (Sample.go Sample.all_well Sample.parameters)))
  /\ exists client,
       fst (Sample.world Sample.all_well (createAndConfigureSdkClient "2015-09-21") 0) =
         Normal client
       /\ client_of (createRepository 1 "team/app") = Some client.
Proof.
  split; [right; right; left; reflexivity|].
  apply (@requests_through_one_client _ (Sample.world Sample.all_well)
           Sample.parse Sample.decode "imagename" Sample.parameters new_TaskOperations 0).
  right. right. left. reflexivity.
Defined.

Lemma creation_failure_propagates_witness :
  In (1, "team/app", Sample.access_denied)
     (creation_failures (trace (Sample.go Sample.creation_denied Sample.parameters)))
  /\ result (Sample.go Sample.creation_denied Sample.parameters) =
       Abrupt Sample.access_denied
  /\ subprocesses (trace (Sample.go Sample.creation_denied Sample.parameters)) = [].
Proof.
  split; [left; reflexivity|].
  destruct (@creation_failure_propagates _ (Sample.world Sample.creation_denied)
              Sample.parse Sample.decode "imagename" Sample.parameters new_TaskOperations 0
              1 "team/app" Sample.access_denied (or_introl eq_refl))
    as (Hresult & _ & Hnone & _).
  split; [exact Hresult|exact Hnone].
Defined.

Lemma missing_authorization_data_witness :
  In {| authorizationData := None |}
     (token_responses
        (trace (Sample.go (Sample.answering {| authorizationData := None |})
                  Sample.parameters)))
  /\ authorizationData {| authorizationData := None |} = None
  /\ (exists message,
        result (Sample.go (Sample.answering {| authorizationData := None |})
                  Sample.parameters) =
          Abrupt (new_Error
            ("Failed to obtain authorization token to log in to ECR, error: "
             ++ toString (TypeError message))))
  /\ subprocesses
       (trace (Sample.go (Sample.answering {| authorizationData := None |})
                 Sample.parameters)) = [].
Proof.
  split; [left; reflexivity|].
  split; [reflexivity|].
  destruct (@missing_authorization_data _
              (Sample.world (Sample.answering {| authorizationData := None |}))
              Sample.parse Sample.decode "imagename" Sample.parameters new_TaskOperations 0
              {| authorizationData := None |} (or_introl eq_refl) eq_refl)
    as (Hresult & Hnone & _).
  split; [exact Hresult|exact Hnone].
Defined.

Lemma rejected_endpoint_witness :
  In {| authorizationData := Some [Sample.endless] |}
     (token_responses
        (trace (Sample.go (Sample.answering {| authorizationData := Some [Sample.endless] |})
                  Sample.parameters)))
  /\ Sample.parse (proxyEndpoint Sample.endless) =
       Abrupt (TypeError "Parameter 'url' must be a string, not undefined")
  /\ result (Sample.go (Sample.answering {| authorizationData := Some [Sample.endless] |})
               Sample.parameters) =
       Abrupt (TypeError "Parameter 'url' must be a string, not undefined")
  /\ subprocesses
       (trace (Sample.go (Sample.answering {| authorizationData := Some [Sample.endless] |})
                 Sample.parameters)) = [].
Proof.
  split; [left; reflexivity|].
  split; [reflexivity|].
  destruct (@rejected_endpoint _
              (Sample.world (Sample.answering {| authorizationData := Some [Sample.endless] |}))
              Sample.parse Sample.decode "imagename" Sample.parameters new_TaskOperations 0
              {| authorizationData := Some [Sample.endless] |} Sample.endless [] _
              (or_introl eq_refl) eq_refl eq_refl)
    as (Hresult & _ & Hnone).
  split; [exact Hresult|exact Hnone].
Defined.

Lemma command_failure_propagates_witness :
  In (exec (Some "/usr/bin/docker")
        [Some "tag"; Some "app:latest";
         Some "123456789012.dkr.ecr.us-east-1.amazonaws.com/team/app:v1"],
      mkError "Error" "docker failed with return code: 1" None)
     (subprocess_failures (trace (Sample.go Sample.docker_fails Sample.parameters)))
  /\ result (Sample.go Sample.docker_fails Sample.parameters) =
       Abrupt (mkError "Error" "docker failed with return code: 1" None)
  /\ variables_set (trace (Sample.go Sample.docker_fails Sample.parameters)) = [].
Proof.
  split; [left; reflexivity|].
  destruct (@command_failure_propagates _ (Sample.world Sample.docker_fails)
              Sample.parse Sample.decode "imagename" Sample.parameters new_TaskOperations 0
              _ _ (or_introl eq_refl))
    as (Hresult & _ & Hnone).
  split; [exact Hresult|exact Hnone].
Defined.

Lemma variable_only_on_success_witness :
  variables_set (trace (Sample.go Sample.all_well Sample.parameters)) <> []
  /\ result (Sample.go Sample.all_well Sample.parameters) = Normal tt
  /\ truthy (outputVariable Sample.parameters) = true.
Proof.
  split; [discriminate|].
  apply (@variable_only_on_success _ (Sample.world Sample.all_well)
           Sample.parse Sample.decode "imagename" Sample.parameters new_TaskOperations 0).
  discriminate.
Defined.

Lemma login_uses_first_entry_witness :
  In (exec (Some "/usr/bin/docker")
        [Some "login"; Some "-u"; Some "AWS"; Some "-p"; Some "secret";
         Some "https://123456789012.dkr.ecr.us-east-1.amazonaws.com"])
     (subprocesses (trace (Sample.go Sample.all_well Sample.parameters)))
  /\ exists response entry rest decoded,
       In response (token_responses (trace (Sample.go Sample.all_well Sample.parameters)))
       /\ authorizationData response = Some (entry :: rest)
       /\ Sample.decode (authorizationToken entry) = Normal decoded
       /\ [Some "-u"; Some "AWS"; Some "-p"; Some "secret";
           Some "https://123456789012.dkr.ecr.us-east-1.amazonaws.com"] =
          [Some "-u"; nth_error (split ":" decoded) 0;
           Some "-p"; nth_error (split ":" decoded) 1;
           proxyEndpoint entry].
Proof.
  split; [right; left; reflexivity|].
  apply (@login_uses_first_entry _ (Sample.world Sample.all_well)
           Sample.parse Sample.decode "imagename" Sample.parameters new_TaskOperations 0
           (Some "/usr/bin/docker")
           [Some "-u"; Some "AWS"; Some "-p"; Some "secret";
            Some "https://123456789012.dkr.ecr.us-east-1.amazonaws.com"]).
  right. left. reflexivity.
Defined.

Lemma undecodable_token_witness :
  In {| authorizationData := Some [Sample.garbled] |}
     (token_responses
        (trace (Sample.go (Sample.answering {| authorizationData := Some [Sample.garbled] |})
                  Sample.by_id)))
  /\ Sample.decode (authorizationToken Sample.garbled) =
       Abrupt (mkError "InvalidCharacterError" "Invalid character" None)
  /\ result (Sample.go (Sample.answering {| authorizationData := Some [Sample.garbled] |})
               Sample.by_id) =
       Abrupt (mkError "InvalidCharacterError" "Invalid character" None).
Proof.
  split; [left; reflexivity|].
  split; [reflexivity|].
  apply (@undecodable_token _
           (Sample.world (Sample.answering {| authorizationData := Some [Sample.garbled] |}))
           Sample.parse Sample.decode "imagename" Sample.by_id new_TaskOperations 0
           {| authorizationData := Some [Sample.garbled] |} Sample.garbled [] _
           (or_introl eq_refl) eq_refl eq_refl).
  - discriminate.
  - reflexivity.
Defined.

Lemma null_host_in_target_witness :
  Sample.parse (proxyEndpoint Sample.hostless) = Normal {| host := None |}
  /\ In (exec (Some "/usr/bin/docker")
           [Some "tag"; Some "app:latest"; Some "null/team/app:v1"])
        (subprocesses
           (trace (Sample.go (Sample.answering {| authorizationData := Some [Sample.hostless] |})
                     Sample.parameters)))
  /\ "null/team/app:v1" =
       "null/" ++ constructTaggedImageName (repositoryName Sample.parameters)
                    (pushTag Sample.parameters).
Proof.
  split; [reflexivity|].
  split; [left; reflexivity|].
  apply (@null_host_in_target _
           (Sample.world (Sample.answering {| authorizationData := Some [Sample.hostless] |}))
           Sample.parse Sample.decode "imagename" Sample.parameters new_TaskOperations 0
           {| authorizationData := Some [Sample.hostless] |} Sample.hostless []
           {| host := None |} (Some "/usr/bin/docker") (Some "app:latest") _
           (or_introl eq_refl) eq_refl eq_refl eq_refl).
  left. reflexivity.
Defined.

Lemma source_id_not_consulted_witness :
  imageSource Sample.parameters = "imagename"
  /\ execute Sample.parse Sample.decode "imagename"
       (with_source_id Sample.parameters "sha256:ffff") =
     execute Sample.parse Sample.decode "imagename" Sample.parameters.
Proof.
  split; [reflexivity|].
  exact (@source_id_not_consulted Sample.parse Sample.decode "imagename"
           Sample.parameters "sha256:ffff" eq_refl).
Defined.


Lemma locateDockerExecutable_result_witness :
  result (run (Sample.world Sample.on_windows) locateDockerExecutable new_TaskOperations 0) =
    Normal "C:\docker\docker.exe"
  /\ "C:\docker\docker.exe" <> ""
  /\ final_this (run (Sample.world Sample.on_windows) locateDockerExecutable
                   new_TaskOperations 0) = new_TaskOperations.
Proof.
  split; [reflexivity|].
  destruct (@locateDockerExecutable_result _ (Sample.world Sample.on_windows)
              new_TaskOperations 0) as (Hpath & _ & Hthis).
  split; [exact (proj1 (Hpath _ eq_refl))|exact Hthis].
Defined.

Lemma authorization_errors_are_wrapped_witness :
  ecrClient {| ecrClient := Some 1; dockerPath := None |} = Some 1
  /\ fst (Sample.world Sample.token_refused (getAuthorizationToken 1) 0) =
       Abrupt Sample.access_denied
  /\ result (run (Sample.world Sample.token_refused) getEcrAuthorizationData
               {| ecrClient := Some 1; dockerPath := None |} 0) =
       Abrupt (new_Error
         ("Failed to obtain authorization token to log in to ECR, error: "
          ++ toString Sample.access_denied)).
Proof.
  split; [reflexivity|].
  split; [reflexivity|].
  exact (proj1 (@authorization_errors_are_wrapped _ (Sample.world Sample.token_refused)
                  {| ecrClient := Some 1; dockerPath := None |} 0)
           1 Sample.access_denied eq_refl eq_refl).
Defined.
